(** * KokoAI RSS summarizer: a shallow embedding of [main.py]

    The script reads a list of feed URLs, fetches every feed, keeps the
    items published on the current day, asks a language model for a summary
    of each and posts the summary to a chat channel.

    The embedding follows the script function by function.  Everything the
    script obtains from outside the process (files, environment, clock,
    network peers, the XML and date parsers) is answered by a [world]; every
    interaction is appended to a trace, so that a run of [main] is a
    function from a world to an outcome and a trace. *)

From Stdlib Require Import ZArith List String Ascii Bool Lia.
Import ListNotations.
Open Scope string_scope.
Open Scope list_scope.
Open Scope Z_scope.
Set Warnings "-register-all".

(** ** Python strings

    A [string] stands for a Python [str]; a character is the code point of
    the same number (the range below 256). *)

Module PyStr.

(** [str.isspace] on one character, for the code points below 256:
    TAB, LF, VT, FF, CR, FS, GS, RS, US, SPACE, NEL and NBSP. *)
Definition isspace (c : ascii) : bool :=
  let n := nat_of_ascii c in
  (((9 <=? n) && (n <=? 13)) || ((28 <=? n) && (n <=? 32))
   || (n =? 133) || (n =? 160))%nat.

Fixpoint lstrip (s : string) : string :=
  match s with
  | EmptyString => EmptyString
  | String c s' => if isspace c then lstrip s' else s
  end.

Fixpoint rstrip (s : string) : string :=
  match s with
  | EmptyString => EmptyString
  | String c s' =>
      match rstrip s' with
      | EmptyString => if isspace c then EmptyString else String c EmptyString
      | r => String c r
      end
  end.

(** [s.strip()] *)
Definition strip (s : string) : string := rstrip (lstrip s).

(** Truth value of a string: [if s], [not s]. *)
Definition truthy (s : string) : bool :=
  match s with EmptyString => false | String _ _ => true end.

(** Every character of [s] is white space (the empty string included). *)
Fixpoint all_space (s : string) : bool :=
  match s with
  | EmptyString => true
  | String c s' => isspace c && all_space s'
  end.

Definition nl : string := String (ascii_of_nat 10) EmptyString.

End PyStr.

(** ** XML trees as lxml presents them

    An element has a tag (a namespaced tag is in Clark notation,
    [{uri}local]), a text that is [None] when the element has no character
    data, and its child elements in document order. *)

Inductive element : Type :=
| Element (tag : string) (text : option string) (children : list element).

Definition tag (e : element) : string :=
  match e with Element t _ _ => t end.
Definition text (e : element) : option string :=
  match e with Element _ x _ => x end.
Definition children (e : element) : list element :=
  match e with Element _ _ cs => cs end.

Module ElementPath.

(** [elem.find(path)] for a path that is a single tag: the first child
    with that tag. *)
Definition find (path : string) (elem : element) : option element :=
  List.find (fun c => String.eqb (tag c) path) (children elem).

(** [elem.findtext(path, default)]: the default when there is no such
    child, the empty string when the child has no text. *)
Definition findtext (path default : string) (elem : element) : string :=
  match find path elem with
  | None => default
  | Some el => match text el with Some t => t | None => EmptyString end
  end.

(** All elements below [elem], in document order. *)
Fixpoint iterdescendants (elem : element) : list element :=
  match elem with
  | Element _ _ cs =>
      (fix walk (l : list element) : list element :=
         match l with
         | [] => []
         | c :: l' => c :: iterdescendants c ++ walk l'
         end) cs
  end.

(** [elem.findall(".//" + name)] *)
Definition findall_descendants (name : string) (elem : element)
  : list element :=
  filter (fun c => String.eqb (tag c) name) (iterdescendants elem).

(** A prefixed path [prefix:local] resolved through a prefix map. *)
Definition resolve (namespaces : list (string * string))
    (prefix local : string) : string :=
  match List.find (fun p => String.eqb (fst p) prefix) namespaces with
  | Some (_, uri) => "{" ++ uri ++ "}" ++ local
  | None => prefix ++ ":" ++ local
  end.

End ElementPath.

(** ** Dates and times

    A [datetime] is a wall-clock reading in seconds since 1970-01-01T00:00
    of its own zone, together with the zone's offset from UTC in seconds;
    a naive datetime has no offset. *)

Record datetime : Type := mkDatetime {
  wall : Z;
  tzinfo : option Z
}.

(** [dt.date()] as a day number: day 0 is 1970-01-01. *)
Definition date (dt : datetime) : Z := wall dt / 86400.

(** [datetime.min] and [datetime.max] as readings: 0001-01-01T00:00:00
    and 9999-12-31T23:59:59. *)
Definition datetime_min : Z := -62135596800.
Definition datetime_max : Z := 253402300799.

(** ** Outcomes of the external calls *)

Inductive RequestException : Type :=
| Timeout (msg : string)
| ConnectionError (msg : string)
| HTTPError (msg : string)
| OtherRequestException (msg : string).

Definition str_of_RequestException (e : RequestException) : string :=
  match e with
  | Timeout m | ConnectionError m | HTTPError m | OtherRequestException m => m
  end.

Record Response : Type := mkResponse {
  status_code : Z;
  content : string
}.

(** [Response.raise_for_status] of the requests library: an [HTTPError]
    for a client error (400 to 499) or a server error (500 to 599), nothing
    for any other status. *)
Definition raise_for_status (resp : Response) : option RequestException :=
  if (400 <=? status_code resp) && (status_code resp <? 500)
  then Some (HTTPError "Client Error")
  else if (500 <=? status_code resp) && (status_code resp <? 600)
  then Some (HTTPError "Server Error")
  else None.

(** The exceptions that no handler of the script catches.  [OSError]
    stands for its subclasses as well ([PermissionError],
    [IsADirectoryError]). *)
Inductive exception : Type :=
| AttributeError (msg : string)
| OSError (msg : string)
| UnicodeDecodeError (msg : string)
| ValueError (msg : string)
| LocationParseError (msg : string).

(** What opening feeds.txt and iterating over it gives: [open] raises
    [FileNotFoundError]; or [open] or the reading raises something else (the
    file is a directory, may not be read, or is not text in the expected
    encoding); or the lines are read. *)
Inductive feeds_file : Type :=
| Absent
| Unreadable (e : exception)
| Lines (lines : list string).

(** What [requests.get] gives: an exception that is no [RequestException]
    (urllib3 raises [LocationParseError] on some malformed URLs), a
    [RequestException], or a response. *)
Inductive fetch : Type :=
| Escapes (e : exception)
| Fails (e : RequestException)
| Responds (resp : Response).

Record SlackMessage : Type := mkSlackMessage {
  channel : string;
  username : string;
  icon_emoji : string;
  unfurl_links : bool;
  msg_text : string;
  block_text : string
}.

Record SlackResponse : Type := mkSlackResponse {
  ok : bool;
  error : string
}.

(** ** Traces *)

Inductive level : Type := INFO | WARNING | ERROR | CRITICAL.

(** One entry per interaction with the outside, with the answer received.
    A failed call carries the text of the exception it raised. *)
Inductive event : Type :=
| Log (lvl : level) (msg : string)
| OpenFeedsTxt (r : feeds_file)
| Getenv (name : string) (r : option string)
| Now (t : Z)
| ClientPs (host : string) (r : option string)
| ClientPull (host model : string) (r : option string)
| ClientCreate (host model from_ system : string) (r : option string)
| ClientShow (host model : string) (r : option string)
| ClientGenerate (host model prompt : string) (r : string + string)
| RequestsGet (url : string) (timeout : Z) (r : fetch)
| ChatPostMessage (token : string) (m : SlackMessage)
    (r : string + SlackResponse).

Definition history : Type := list event.

(** ** The world

    The answers of everything outside the process.  An answer may depend on
    all that happened before, so the clock advances and a peer may fail on
    one call and succeed on the next. *)
Record world : Type := mkWorld {
  (** feeds.txt, with its lines as iterating the file yields them *)
  feeds_txt : feeds_file;
  (** the process environment *)
  environ : string -> option string;
  (** the clock, in seconds since the epoch (UTC) *)
  time_now : history -> Z;
  (** the local zone: its offset from UTC at an instant, and the instant
      of a local wall-clock reading; [inl msg] when the platform cannot
      convert the reading (an [OverflowError] or an [OSError]) *)
  utcoffset : Z -> Z;
  mktime : Z -> string + Z;
  (** [Client(host=...)] of the ollama library, which contacts nobody:
      [Some e] is the exception raised on an address it cannot parse *)
  client_new : string -> option exception;
  (** the Ollama server; [Some msg] and [inl msg] are raised exceptions *)
  client_ps : history -> string -> option string;
  client_pull : history -> string -> string -> option string;
  client_create : history -> string -> string -> string -> string
                  -> option string;
  client_show : history -> string -> string -> option string;
  client_generate : history -> string -> string -> string -> string + string;
  (** the HTTP peers *)
  requests_get : history -> string -> Z -> fetch;
  (** opening a file for writing and writing it: [Some e] is the
      exception raised (an [OSError]: no permission, no space left) *)
  write_fails : history -> string -> option exception;
  (** [etree.parse] on the bytes of a file; [inl msg] is an
      [XMLSyntaxError] *)
  etree_parse : string -> string + element;
  (** [email.utils.parsedate_to_datetime]; [inl msg] is the exception it
      raises (a [TypeError] on [None], a [ValueError] on a malformed date) *)
  parsedate_to_datetime : option string -> string + datetime;
  (** the Slack API *)
  chat_postMessage : history -> string -> SlackMessage
                     -> string + SlackResponse
}.

(** ** The monad of the script: state, process exit and escaping exceptions *)

Inductive outcome (A : Type) : Type :=
| Ret (a : A)
| Exit (code : Z)
| Raise (e : exception).
Arguments Ret {A} a.
Arguments Exit {A} code.
Arguments Raise {A} e.

Record state : Type := mkState {
  trace : history;
  (** the files the script writes: name to contents *)
  files : string -> option string
}.

Definition M (A : Type) : Type := state -> outcome A * state.

Definition ret {A} (a : A) : M A := fun s => (Ret a, s).

Definition bind {A B} (m : M A) (k : A -> M B) : M B :=
  fun s =>
    match m s with
    | (Ret a, s') => k a s'
    | (Exit c, s') => (Exit c, s')
    | (Raise e, s') => (Raise e, s')
    end.

Declare Scope py_scope.
Delimit Scope py_scope with py.
Notation "x <- m ;; k" := (bind m (fun x => k))
  (at level 61, m at next level, right associativity) : py_scope.
Notation "m ;; k" := (bind m (fun _ => k))
  (at level 61, right associativity) : py_scope.
Open Scope py_scope.

(** [exit(code)]: [SystemExit] is not an [Exception], so no handler of the
    script stops it. *)
Definition exit {A} (code : Z) : M A := fun s => (Exit code, s).

Definition raise {A} (e : exception) : M A := fun s => (Raise e, s).

Definition emit (e : event) : M unit :=
  fun s => (Ret tt, mkState (trace s ++ [e]) (files s)).

(** An external call: the world answers from the history, and the call and
    its answer enter the trace. *)
Definition call {A} (answer : history -> A) (ev : A -> event) : M A :=
  fun s => let r := answer (trace s) in
           (Ret r, mkState (trace s ++ [ev r]) (files s)).

(** A question to the world that leaves no entry in the trace. *)
Definition ask {A} (answer : history -> A) : M A :=
  fun s => (Ret (answer (trace s)), s).

Definition logging (lvl : level) (msg : string) : M unit := emit (Log lvl msg).

Definition write_file (name data : string) : M unit :=
  fun s => (Ret tt,
            mkState (trace s)
              (fun n => if String.eqb n name then Some data else files s n)).

Definition read_file (name : string) : M (option string) :=
  fun s => (Ret (files s name), s).

(** [for x in l: acc = body x acc] *)
Fixpoint for_fold {A B} (body : A -> B -> M B) (l : list A) (acc : B) : M B :=
  match l with
  | [] => ret acc
  | x :: l' => acc' <- body x acc ;; for_fold body l' acc'
  end.

(** [for x in l: body x] *)
Fixpoint for_each {A} (body : A -> M unit) (l : list A) : M unit :=
  match l with
  | [] => ret tt
  | x :: l' => body x ;; for_each body l'
  end.

(** ** The script *)

Definition article : Type := (string * string * string)%type.

Section Script.

Variable w : world.

(** [os.getenv(name)] and [os.getenv(name, default)] *)
Definition os_getenv (name : string) : M (option string) :=
  call (fun _ => environ w name) (Getenv name).

Definition os_getenv_default (name default : string) : M string :=
  r <- os_getenv name ;;
  ret (match r with Some v => v | None => default end).

(** [datetime.now()]: the local wall clock, naive. *)
Definition datetime_now : M datetime :=
  t <- call (time_now w) Now ;;
  ret (mkDatetime (t + utcoffset w t) None).

(** [dt.astimezone(timezone.utc)]: an aware datetime is shifted by its
    own offset, a naive one is read as local time; the result must lie
    between [datetime.min] and [datetime.max], else an [OverflowError] is
    raised.  [inl msg] is the exception. *)
Definition astimezone_utc (dt : datetime) : string + datetime :=
  let in_range (u : Z) : string + datetime :=
    if (datetime_min <=? u) && (u <=? datetime_max)
    then inr (mkDatetime u (Some 0))
    else inl "date value out of range" in
  match tzinfo dt with
  | Some off => in_range (wall dt - off)
  | None =>
      match mktime w (wall dt) with
      | inl e => inl e
      | inr u => in_range u
      end
  end.

(** [parsedate_to_datetime(text).astimezone(timezone.utc).date()]; [inl
    msg] is the exception that one of the two calls raises. *)
Definition pub_date_of (text : option string) : string + Z :=
  match parsedate_to_datetime w text with
  | inl e => inl e
  | inr dt =>
      match astimezone_utc dt with
      | inl e => inl e
      | inr utc => inr (date utc)
      end
  end.

(** [Client(host=ollama_host)]: the client object is its host. *)
Definition Client (host : string) : M string :=
  match client_new w host with
  | Some e => raise e
  | None => ret host
  end.

Definition ai_connect (ollama_host : string) : M string :=
  client <- Client ollama_host ;;
  r <- call (fun h => client_ps w h client) (ClientPs client) ;;
  match r with
  | None =>
      logging INFO ("Connected to Ollama at " ++ ollama_host) ;;
      ret client
  | Some e =>
      logging CRITICAL
        ("Failed to connect to AI server at " ++ ollama_host ++ ": " ++ e) ;;
      exit 1
  end.

Definition ai_model (client llm_model system_ops : string) : M unit :=
  let failed (e : string) : M unit :=
    logging ERROR ("AI model initialization failed: " ++ e) ;; exit 1 in
  logging INFO ("Pulling AI model '" ++ llm_model ++ "'...") ;;
  r1 <- call (fun h => client_pull w h client llm_model)
          (ClientPull client llm_model) ;;
  match r1 with
  | Some e => failed e
  | None =>
      r2 <- call (fun h => client_create w h client
                             "custom_model" llm_model system_ops)
              (ClientCreate client "custom_model" llm_model system_ops) ;;
      match r2 with
      | Some e => failed e
      | None =>
          r3 <- call (fun h => client_show w h client "custom_model")
                  (ClientShow client "custom_model") ;;
          match r3 with
          | Some e => failed e
          | None => logging INFO ("AI model '" ++ llm_model ++ "' is ready.")
          end
      end
  end.

Definition ai_summary (client text : string) : M string :=
  r <- call (fun h => client_generate w h client "custom_model" text)
         (ClientGenerate client "custom_model" text) ;;
  match r with
  | inr response => ret response
  | inl e => logging ERROR ("AI processing failed: " ++ e) ;; exit 1
  end.

Definition slack_payload (title message link : string) : SlackMessage :=
  mkSlackMessage "random" "KokoAI" ":robot_face:" false
    (title ++ ": " ++ message)
    ("*<" ++ link ++ "|" ++ title ++ ">*" ++ PyStr.nl ++ message).

Definition send_slack_message (title message link : string) : M unit :=
  slack_token <- os_getenv "SLACK_API_TOKEN" ;;
  match slack_token with
  | None | Some EmptyString =>
      logging ERROR
        "Slack API token is missing. Set SLACK_API_TOKEN in your environment." ;;
      exit 1
  | Some token =>
      let m := slack_payload title message link in
      response <- call (fun h => chat_postMessage w h token m)
                    (ChatPostMessage token m) ;;
      match response with
      | inr resp =>
          if ok resp then logging INFO ("Sent Slack message: " ++ title)
          else logging ERROR ("Slack API error: " ++ error resp)
      | inl e => logging ERROR ("Failed to send Slack message: " ++ e)
      end
  end.

Definition get_feed_list : M (list string) :=
  r <- call (fun _ => feeds_txt w) OpenFeedsTxt ;;
  match r with
  | Lines file =>
      let urls :=
        map PyStr.strip
          (filter (fun url => PyStr.truthy (PyStr.strip url)) file) in
      (match urls with
       | [] => logging WARNING "feeds.txt is empty."
       | _ => ret tt
       end) ;;
      ret urls
  | Absent =>
      logging CRITICAL
        "feeds.txt not found. Please create the file with feed URLs." ;;
      exit 1
  | Unreadable e => raise e
  end.

Definition save_feed_raw (url : string) : M (option string) :=
  let failed (e : RequestException) : M (option string) :=
    logging ERROR
      ("Failed to fetch " ++ url ++ ": " ++ str_of_RequestException e) ;;
    ret None in
  r <- call (fun h => requests_get w h url 20) (RequestsGet url 20) ;;
  match r with
  | Escapes e => raise e
  | Fails e => failed e
  | Responds resp =>
      match raise_for_status resp with
      | Some e => failed e
      | None =>
          let filename := "raw_feed.xml" in
          failure <- ask (fun h => write_fails w h filename) ;;
          match failure with
          | Some e => raise e
          | None =>
              write_file filename (content resp) ;;
              ret (Some filename)
          end
      end
  end.

Definition namespaces : list (string * string) :=
  [("content", "http://purl.org/rss/1.0/modules/content/")].

(** The body of the loop over the items; [continue] is the return of the
    unchanged list. *)
Definition item_step (file : string) (today : Z) (item : element)
    (articles : list article) : M (list article) :=
  match ElementPath.find "pubDate" item with
  | None => ret articles
  | Some pub_date_elem =>
      match pub_date_of (text pub_date_elem) with
      | inl e =>
          logging WARNING
            ("Skipping article due to date parsing error in "
               ++ file ++ ": " ++ e) ;;
          ret articles
      | inr pub_date =>
          if negb (pub_date =? today) then ret articles
          else
            let title :=
              PyStr.strip (ElementPath.findtext "title" EmptyString item) in
            let link :=
              PyStr.strip (ElementPath.findtext "link" EmptyString item) in
            let content_elem :=
              ElementPath.find
                (ElementPath.resolve namespaces "content" "encoded") item in
            content <-
              match content_elem with
              | None => ret EmptyString
              | Some el =>
                  match text el with
                  | Some t => ret (PyStr.strip t)
                  | None =>
                      raise (AttributeError
                        "'NoneType' object has no attribute 'strip'")
                  end
              end ;;
            if PyStr.truthy title && PyStr.truthy link
               && PyStr.truthy content
            then ret (articles ++ [(title, link, content)])
            else ret articles
      end
  end.

Definition get_feed_content (file : string) : M (list article) :=
  now <- datetime_now ;;
  let today := date now in
  data <- read_file file ;;
  match data with
  | None => raise (OSError ("Error reading file '" ++ file ++ "'"))
  | Some bytes =>
      match etree_parse w bytes with
      | inl e =>
          logging CRITICAL
            ("Failed to parse XML from " ++ file ++ ": " ++ e) ;;
          ret []
      | inr root =>
          articles <-
            for_fold (item_step file today)
              (ElementPath.findall_descendants "item" root) [] ;;
          (match articles with
           | [] => logging INFO ("No new articles found in " ++ file)
           | _ => ret tt
           end) ;;
          ret articles
      end
  end.

(** The body of the loop over the articles of one feed. *)
Definition article_step (client : string) (a : article) : M unit :=
  let '(title, link, content) := a in
  response <- ai_summary client content ;;
  send_slack_message title response link.

(** The body of the loop over the feeds. *)
Definition feed_step (client url : string) : M unit :=
  logging INFO ("Processing feed: " ++ url) ;;
  filename <- save_feed_raw url ;;
  match filename with
  | None => ret tt
  | Some filename =>
      articles <- get_feed_content filename ;;
      match articles with
      | [] => logging INFO ("No new articles today from " ++ url)
      | _ => for_each (article_step client) articles
      end
  end.

Definition main : M unit :=
  urls <- get_feed_list ;;
  match urls with
  | [] => logging INFO "No feed URLs found. Exiting."
  | _ =>
      ollama_host <- os_getenv_default "OLLAMA_HOST" "http://localhost:11434" ;;
      (if String.eqb ollama_host "http://localhost:11434"
       then logging WARNING
              "OLLAMA_HOST not set, using default 'http://localhost:11434'"
       else ret tt) ;;
      client <- ai_connect ollama_host ;;
      system_ops <- os_getenv_default "SYSTEM_OPS" EmptyString ;;
      (if PyStr.truthy system_ops then ret tt
       else logging WARNING
              "SYSTEM_OPS not set, using empty system options.") ;;
      model <- os_getenv_default "MODEL" "llama3.2" ;;
      (if String.eqb model "llama3.2"
       then logging WARNING "MODEL not set, using default 'llama3.2'."
       else ret tt) ;;
      ai_model client model system_ops ;;
      for_each (feed_step client) urls
  end.

End Script.

(** The state in which the process starts: nothing has happened, and the
    script has written no file. *)
Definition initial : state := mkState [] (fun _ => None).

(** A run of the script in a world: its outcome and its trace. *)
Definition run (w : world) : outcome unit * history :=
  let '(r, s) := main w initial in (r, trace s).

(** Exit status of the process: 0 when [main] returns, the argument of
    [exit], and 1 when an exception escapes. *)
Definition exit_status (r : outcome unit) : Z :=
  match r with
  | Ret _ => 0
  | Exit code => code
  | Raise _ => 1
  end.

(** ** Sample worlds

    Concrete worlds on which the script is run below.  Day 19723 is
    2024-01-01. *)

Module Sample.

Definition day : Z := 19723.
Definition midnight : Z := day * 86400.

(** A table of the dates used below, as [parsedate_to_datetime] reads
    them. *)
Definition dates : list (string * datetime) :=
  [ ("Mon, 01 Jan 2024 19:00:00 +0000",
      mkDatetime (midnight + 19 * 3600) (Some 0));
    ("Mon, 01 Jan 2024 10:30:00 +0000",
      mkDatetime (midnight + 10 * 3600 + 1800) (Some 0));
    ("Sun, 31 Dec 2023 10:30:00 +0000",
      mkDatetime (midnight - 86400 + 10 * 3600 + 1800) (Some 0));
    ("Tue, 02 Jan 2024 04:00:00 +0900",
      mkDatetime (midnight + 86400 + 4 * 3600) (Some 32400));
    ("Fri, 31 Dec 9999 23:59:59 -0100",
      mkDatetime datetime_max (Some (-3600))) ].

Definition parsedate (s : option string) : string + datetime :=
  match s with
  | None => inl "expected string or bytes-like object"
  | Some s =>
      match List.find (fun p => String.eqb (fst p) s) dates with
      | Some (_, dt) => inr dt
      | None => inl "Invalid date value or format"
      end
  end.

Definition encoded : string :=
  "{http://purl.org/rss/1.0/modules/content/}encoded".

Definition item (title link pubDate : string) (body : option string)
  : element :=
  Element "item" None
    [ Element "title" (Some title) [];
      Element "link" (Some link) [];
      Element "pubDate" (Some pubDate) [];
      Element encoded body [] ].

Definition rss (items : list element) : element :=
  Element "rss" None [ Element "channel" None items ].

(** A table of documents: the bytes served and the tree lxml builds from
    them; any other byte string is not well-formed here. *)
Definition parse_table (docs : list (string * element)) (bytes : string)
  : string + element :=
  match List.find (fun p => String.eqb (fst p) bytes) docs with
  | Some (_, root) => inr root
  | None => inl "Start tag expected, '<' not found, line 1, column 1"
  end.

Definition env_of (l : list (string * string)) (name : string)
  : option string :=
  match List.find (fun p => String.eqb (fst p) name) l with
  | Some (_, v) => Some v
  | None => None
  end.

(** A world with a reachable model server and a working Slack API, at a
    fixed instant [t] in a zone [tz] seconds east of UTC.  feeds.txt is
    absent ([None]) or holds the given lines; every address makes a client;
    a request raises a [RequestException] or is answered; the working
    directory can be written. *)
Definition make (feeds : option (list string))
    (env : list (string * string)) (t tz : Z)
    (get : string -> RequestException + Response)
    (generate : string -> string + string)
    (docs : list (string * element)) : world :=
  mkWorld
    (match feeds with Some lines => Lines lines | None => Absent end)
    (env_of env) (fun _ => t) (fun _ => tz) (fun x => inr (x - tz))
    (fun _ => None)
    (fun _ _ => None) (fun _ _ _ => None) (fun _ _ _ _ _ => None)
    (fun _ _ _ => None)
    (fun _ _ _ prompt => generate prompt)
    (fun _ url _ => match get url with inl e => Fails e | inr r => Responds r end)
    (fun _ _ => None)
    (parse_table docs) parsedate
    (fun _ _ _ => inr (mkSlackResponse true EmptyString)).

Definition doc1 : string :=
  "<rss xmlns:content='http://purl.org/rss/1.0/modules/content/'><channel>"
  ++ "<item><title>Alpha</title><link>http://a.example/1</link>"
  ++ "<pubDate>Mon, 01 Jan 2024 10:30:00 +0000</pubDate>"
  ++ "<content:encoded>First body</content:encoded></item>"
  ++ "<item><title>Beta</title><link>http://a.example/0</link>"
  ++ "<pubDate>Sun, 31 Dec 2023 10:30:00 +0000</pubDate>"
  ++ "<content:encoded>Old body</content:encoded></item>"
  ++ "</channel></rss>".

Definition tree1 : element :=
  rss [ item "Alpha" "http://a.example/1"
          "Mon, 01 Jan 2024 10:30:00 +0000" (Some "First body");
        item "Beta" "http://a.example/0"
          "Sun, 31 Dec 2023 10:30:00 +0000" (Some "Old body") ].

Definition url1 : string := "http://a.example/feed".
Definition url2 : string := "http://b.example/feed".

Definition get1 (url : string) : RequestException + Response :=
  if String.eqb url url1 then inr (mkResponse 200 doc1)
  else inl (Timeout "Read timed out. (read timeout=20)").

Definition summarize (prompt : string) : string + string :=
  inr ("Summary of " ++ prompt)%string.

Definition token_env : list (string * string) :=
  [("SLACK_API_TOKEN", "xoxb-1")].

(** Two feeds at noon UTC in a UTC zone: the first serves [doc1], the
    second times out. *)
Definition two_feeds : world :=
  make (Some [url1 ++ PyStr.nl; url2 ++ PyStr.nl]%string) token_env
    (midnight + 12 * 3600) 0 get1 summarize [(doc1, tree1)].

End Sample.

Module Cases.
Import Sample.

(** One item published at 19:00 UTC on day 19723. *)
Definition doc_evening : string :=
  "<rss xmlns:content='http://purl.org/rss/1.0/modules/content/'><channel>"
  ++ "<item><title>Gamma</title><link>http://a.example/2</link>"
  ++ "<pubDate>Mon, 01 Jan 2024 19:00:00 +0000</pubDate>"
  ++ "<content:encoded>Evening body</content:encoded></item>"
  ++ "</channel></rss>".

Definition tree_evening : element :=
  rss [ item "Gamma" "http://a.example/2"
          "Mon, 01 Jan 2024 19:00:00 +0000" (Some "Evening body") ].

Definition serve (doc : string) (url : string)
  : RequestException + Response :=
  inr (mkResponse 200 doc).

(** 20:00 UTC on day 19723 on a machine nine hours east of UTC, where it
    is 05:00 on day 19724. *)
Definition tokyo : world :=
  make (Some [url1]) token_env (midnight + 20 * 3600) 32400
    (serve doc_evening) summarize [(doc_evening, tree_evening)].

(** The same instant on a machine in UTC. *)
Definition utc_evening : world :=
  make (Some [url1]) token_env (midnight + 20 * 3600) 0
    (serve doc_evening) summarize [(doc_evening, tree_evening)].

(** An item of the day whose [content:encoded] element is empty. *)
Definition doc_hollow : string :=
  "<rss xmlns:content='http://purl.org/rss/1.0/modules/content/'><channel>"
  ++ "<item><title>Delta</title><link>http://a.example/3</link>"
  ++ "<pubDate>Mon, 01 Jan 2024 10:30:00 +0000</pubDate>"
  ++ "<content:encoded/></item>"
  ++ "</channel></rss>".

Definition tree_hollow : element :=
  rss [ item "Delta" "http://a.example/3"
          "Mon, 01 Jan 2024 10:30:00 +0000" None ].

Definition hollow : world :=
  make (Some [url1; url2]) token_env (midnight + 12 * 3600) 0
    (serve doc_hollow) summarize [(doc_hollow, tree_hollow)].

(** The same item with an empty [title] element instead. *)
Definition tree_untitled : element :=
  rss [ Element "item" None
          [ Element "title" None [];
            Element "link" (Some "http://a.example/3") [];
            Element "pubDate" (Some "Mon, 01 Jan 2024 10:30:00 +0000") [];
            Element encoded (Some "Body") [] ] ].

(** Two items of the day. *)
Definition tree_pair : element :=
  rss [ item "Alpha" "http://a.example/1"
          "Mon, 01 Jan 2024 10:30:00 +0000" (Some "First body");
        item "Gamma" "http://a.example/2"
          "Mon, 01 Jan 2024 19:00:00 +0000" (Some "Evening body") ].

Definition pair_today : world :=
  make (Some [url1]) token_env (midnight + 20 * 3600) 0
    (serve "<pair/>") summarize [("<pair/>", tree_pair)].

(** [two_feeds] without the Slack token. *)
Definition no_token : world :=
  make (Some [url1; url2]) [] (midnight + 12 * 3600) 0
    get1 summarize [(doc1, tree1)].

(** Without the token, one day later: the feed has nothing of the day. *)
Definition no_token_quiet : world :=
  make (Some [url1; url2]) [] (midnight + 86400 + 12 * 3600) 0
    get1 summarize [(doc1, tree1)].

(** The model server fails on every generate call. *)
Definition model_down : world :=
  make (Some [url1; url2]) token_env (midnight + 12 * 3600) 0
    (serve "<pair/>") (fun _ => inl "connection refused")
    [("<pair/>", tree_pair)].

(** The first feed answers 300 Multiple Choices without a Location. *)
Definition multiple_choices : world :=
  make (Some [url1; url2]) token_env (midnight + 12 * 3600) 0
    (fun url => if String.eqb url url1 then inr (mkResponse 300 EmptyString)
                else inr (mkResponse 200 doc1))
    summarize [(doc1, tree1)].

(** The first feed serves bytes that are no XML. *)
Definition garbled : world :=
  make (Some [url1; url2]) token_env (midnight + 12 * 3600) 0
    (fun url => if String.eqb url url1 then inr (mkResponse 200 "oops")
                else inr (mkResponse 200 doc1))
    summarize [(doc1, tree1)].

Definition no_feeds_file : world :=
  make None token_env (midnight + 12 * 3600) 0 get1 summarize [].

Definition blank_feeds_file : world :=
  make (Some [PyStr.nl; ("   " ++ PyStr.nl)%string]) token_env
    (midnight + 12 * 3600) 0 get1 summarize [].

Definition empty_feeds_file : world :=
  make (Some []) token_env (midnight + 12 * 3600) 0 get1 summarize [].

(** The same feed listed twice, with a blank line in between. *)
Definition doubled : world :=
  make (Some [("  " ++ url2 ++ PyStr.nl)%string; PyStr.nl; url2])
    token_env (midnight + 12 * 3600) 0 get1 summarize [].

(** The feed serves the item without a title text. *)
Definition untitled : world :=
  make (Some [url1; url2]) token_env (midnight + 12 * 3600) 0
    (serve "<untitled/>") summarize [("<untitled/>", tree_untitled)].

(** A state in which raw_feed.xml holds [bytes] and nothing has happened
    yet. *)
Definition stored (bytes : string) : state :=
  mkState [] (fun n => if String.eqb n "raw_feed.xml" then Some bytes
                       else None).

Definition gamma : element :=
  item "Gamma" "http://a.example/2" "Mon, 01 Jan 2024 19:00:00 +0000"
    (Some "Evening body").

(** An item whose date does not parse, an item whose date parses but has
    no UTC value within the range of [datetime], an item without a date, and
    an item of the day. *)
Definition tree_mixed : element :=
  rss [ item "Bad" "http://a.example/9" "not-a-date" (Some "Body");
        item "Far" "http://a.example/7" "Fri, 31 Dec 9999 23:59:59 -0100"
          (Some "Body");
        Element "item" None
          [ Element "title" (Some "Nodate") [];
            Element "link" (Some "http://a.example/8") [];
            Element encoded (Some "Body") [] ];
        item "Alpha" "http://a.example/1"
          "Mon, 01 Jan 2024 10:30:00 +0000" (Some "First body") ].

Definition mixed : world :=
  make (Some [url1]) token_env (midnight + 12 * 3600) 0
    (serve "<mixed/>") summarize [("<mixed/>", tree_mixed)].

(** [two_feeds] with a Slack API that answers as [post] says. *)
Definition with_slack (post : string + SlackResponse) : world :=
  mkWorld (feeds_txt two_feeds) (environ two_feeds) (time_now two_feeds)
    (utcoffset two_feeds) (mktime two_feeds) (client_new two_feeds)
    (client_ps two_feeds)
    (client_pull two_feeds) (client_create two_feeds)
    (client_show two_feeds) (client_generate two_feeds)
    (requests_get two_feeds) (write_fails two_feeds) (etree_parse two_feeds)
    (parsedate_to_datetime two_feeds) (fun _ _ _ => post).

(** [two_feeds] with a model server that refuses connections. *)
Definition server_down : world :=
  mkWorld (feeds_txt two_feeds) (environ two_feeds) (time_now two_feeds)
    (utcoffset two_feeds) (mktime two_feeds) (client_new two_feeds)
    (fun _ _ => Some "Connection refused")
    (client_pull two_feeds) (client_create two_feeds)
    (client_show two_feeds) (client_generate two_feeds)
    (requests_get two_feeds) (write_fails two_feeds) (etree_parse two_feeds)
    (parsedate_to_datetime two_feeds) (chat_postMessage two_feeds).

(** [two_feeds] with a feeds.txt that exists but is not text in the
    encoding of the locale. *)
Definition undecodable_feeds_file : world :=
  mkWorld
    (Unreadable
       (UnicodeDecodeError
          "'utf-8' codec can't decode byte 0xff in position 0: invalid start byte"))
    (environ two_feeds) (time_now two_feeds)
    (utcoffset two_feeds) (mktime two_feeds) (client_new two_feeds)
    (client_ps two_feeds)
    (client_pull two_feeds) (client_create two_feeds)
    (client_show two_feeds) (client_generate two_feeds)
    (requests_get two_feeds) (write_fails two_feeds) (etree_parse two_feeds)
    (parsedate_to_datetime two_feeds) (chat_postMessage two_feeds).

(** [two_feeds] with a model server address whose port is no number, on
    which [Client] raises. *)
Definition bad_host : world :=
  mkWorld (feeds_txt two_feeds)
    (env_of [("SLACK_API_TOKEN", "xoxb-1"); ("OLLAMA_HOST", "http://ollama:port")])
    (time_now two_feeds)
    (utcoffset two_feeds) (mktime two_feeds)
    (fun host =>
       if String.eqb host "http://ollama:port"
       then Some (ValueError "Port could not be cast to integer value as 'port'")
       else None)
    (client_ps two_feeds)
    (client_pull two_feeds) (client_create two_feeds)
    (client_show two_feeds) (client_generate two_feeds)
    (requests_get two_feeds) (write_fails two_feeds) (etree_parse two_feeds)
    (parsedate_to_datetime two_feeds) (chat_postMessage two_feeds).

(** [two_feeds] where the request for the first feed raises an exception
    of urllib3, and where raw_feed.xml may not be written. *)
Definition bad_url : world :=
  mkWorld (feeds_txt two_feeds) (environ two_feeds) (time_now two_feeds)
    (utcoffset two_feeds) (mktime two_feeds) (client_new two_feeds)
    (client_ps two_feeds)
    (client_pull two_feeds) (client_create two_feeds)
    (client_show two_feeds) (client_generate two_feeds)
    (fun _ url _ =>
       if String.eqb url url1
       then Escapes (LocationParseError "Failed to parse: http://a.example/feed")
       else Responds (mkResponse 200 doc1))
    (fun _ _ => Some (OSError "[Errno 13] Permission denied: 'raw_feed.xml'"))
    (etree_parse two_feeds)
    (parsedate_to_datetime two_feeds) (chat_postMessage two_feeds).

(** The scenario of two feeds with the items dated in UTC: the first feed
    serves an item published at 19:00 UTC on day 19723, all fields filled,
    and an item of the day before; the second feed times out.  The clock
    shows 20:00 UTC on day 19723. *)
Definition doc_scenario : string :=
  "<rss xmlns:content='http://purl.org/rss/1.0/modules/content/'><channel>"
  ++ "<item><title>Gamma</title><link>http://a.example/2</link>"
  ++ "<pubDate>Mon, 01 Jan 2024 19:00:00 +0000</pubDate>"
  ++ "<content:encoded>Evening body</content:encoded></item>"
  ++ "<item><title>Beta</title><link>http://a.example/0</link>"
  ++ "<pubDate>Sun, 31 Dec 2023 10:30:00 +0000</pubDate>"
  ++ "<content:encoded>Old body</content:encoded></item>"
  ++ "</channel></rss>".

Definition beta : element :=
  item "Beta" "http://a.example/0" "Sun, 31 Dec 2023 10:30:00 +0000"
    (Some "Old body").

Definition tree_scenario : element := rss [gamma; beta].

Definition get_scenario (url : string) : RequestException + Response :=
  if String.eqb url url1 then inr (mkResponse 200 doc_scenario)
  else inl (Timeout "Read timed out. (read timeout=20)").

(** The scenario on a machine [tz] seconds east of UTC. *)
Definition scenario (tz : Z) : world :=
  make (Some [url1; url2]) token_env (midnight + 20 * 3600) tz
    get_scenario summarize [(doc_scenario, tree_scenario)].


(** [two_feeds] with its own model server address, model and system
    text. *)
Definition configured : world :=
  make (Some [url1; url2])
    [("SLACK_API_TOKEN", "xoxb-1"); ("OLLAMA_HOST", "http://ollama:11434");
     ("MODEL", "mistral"); ("SYSTEM_OPS", "Summarize in one line.")]
    (midnight + 12 * 3600) 0 get1 summarize [(doc1, tree1)].

End Cases.

(** ** Vocabulary of the statements *)

(** The kinds of interaction. *)
Inductive call_class : Type :=
| CLog | COpen | CGetenv | CNow | CPs | CPull | CCreate | CShow
| CGenerate | CGet | CPost.

Definition class_of (e : event) : call_class :=
  match e with
  | Log _ _ => CLog
  | OpenFeedsTxt _ => COpen
  | Getenv _ _ => CGetenv
  | Now _ => CNow
  | ClientPs _ _ => CPs
  | ClientPull _ _ _ => CPull
  | ClientCreate _ _ _ _ _ => CCreate
  | ClientShow _ _ _ => CShow
  | ClientGenerate _ _ _ _ => CGenerate
  | RequestsGet _ _ _ => CGet
  | ChatPostMessage _ _ _ => CPost
  end.

(** How a computation ended, whatever it returned. *)
Inductive kind : Type :=
| KRet
| KExit (code : Z)
| KRaise (e : exception).

Definition kind_of {A} (r : outcome A) : kind :=
  match r with
  | Ret _ => KRet
  | Exit c => KExit c
  | Raise e => KRaise e
  end.

(** [satisfies Q m]: from any state, [m] only extends the trace, and the
    way it ended and the entries it added are related by [Q]. *)
Definition satisfies (Q : kind -> history -> Prop) {A} (m : M A) : Prop :=
  forall s, exists d,
    trace (snd (m s)) = trace s ++ d /\ Q (kind_of (fst (m s))) d.

(** Only interactions of the listed kinds. *)
Definition only (allowed : list call_class) (_ : kind) (d : history) : Prop :=
  Forall (fun e => In (class_of e) allowed) d.

(** The URLs requested, in order. *)
Definition fetched (d : history) : list string :=
  flat_map (fun e => match e with RequestsGet url _ _ => [url] | _ => [] end) d.

Definition is_generate (e : event) : bool :=
  match e with ClientGenerate _ _ _ _ => true | _ => false end.

Definition is_post (e : event) : bool :=
  match e with ChatPostMessage _ _ _ => true | _ => false end.

(** The summarize and notify calls of a trace. *)
Definition gateway_calls (d : history) : history :=
  filter (fun e => is_generate e || is_post e) d.

(** A summarize call that raised. *)
Definition generate_failed (e : event) : bool :=
  match e with ClientGenerate _ _ _ (inl _) => true | _ => false end.

Definition no_failed_generate (d : history) : Prop :=
  Forall (fun e => generate_failed e = false) d.

(** Either no summarize call failed, or the computation exited with
    status 1 right after the one that did, leaving only the log record of the
    failure behind it. *)
Definition stops_at_failed_generate (k : kind) (d : history) : Prop :=
  no_failed_generate d
  \/ (k = KExit 1 /\
      exists d0 host model prompt e,
        d = d0 ++ [ClientGenerate host model prompt (inl e);
                   Log ERROR ("AI processing failed: " ++ e)]
        /\ no_failed_generate d0).

(** The summarize and notify calls of the loop over [articles]: one
    summarize call and then one notify call carrying its answer for each
    article in turn; the loop ends early, with exit status 1, only at a
    summarize call that raised or at a summarize call after which the token
    was found missing. *)
Inductive paired_upto (client : string)
  : list article -> history -> kind -> Prop :=
| paired_done : paired_upto client [] [] KRet
| paired_step title link body summary token r rest d k :
    paired_upto client rest d k ->
    paired_upto client ((title, link, body) :: rest)
      (ClientGenerate client "custom_model" body (inr summary)
       :: ChatPostMessage token (slack_payload title summary link) r :: d) k
| paired_generate_failed title link body e rest :
    paired_upto client ((title, link, body) :: rest)
      [ClientGenerate client "custom_model" body (inl e)] (KExit 1)
| paired_token_missing title link body summary rest :
    paired_upto client ((title, link, body) :: rest)
      [ClientGenerate client "custom_model" body (inr summary)] (KExit 1).

(** The token is missing when the variable is unset or empty. *)
Definition token_missing (w : world) : Prop :=
  environ w "SLACK_API_TOKEN" = None
  \/ environ w "SLACK_API_TOKEN" = Some EmptyString.

(** The day [datetime.now().date()] yields when the clock is read after
    [h], and the day of the same instant in UTC. *)
Definition local_today (w : world) (h : history) : Z :=
  (time_now w h + utcoffset w (time_now w h)) / 86400.

Definition utc_today (w : world) (h : history) : Z :=
  time_now w h / 86400.

(** The item carries a publication date that parses and falls, in UTC, on
    day [d]. *)
Definition dated (w : world) (item : element) (d : Z) : Prop :=
  exists p,
    ElementPath.find "pubDate" item = Some p
    /\ pub_date_of w (text p) = inr d.

(** The item has the three fields of [a], each non-empty once trimmed. *)
Definition populated (item : element) (a : article) : Prop :=
  let '(title, link, body) := a in
  PyStr.strip (ElementPath.findtext "title" EmptyString item) = title
  /\ PyStr.strip (ElementPath.findtext "link" EmptyString item) = link
  /\ (exists el raw,
        ElementPath.find
          (ElementPath.resolve namespaces "content" "encoded") item = Some el
        /\ text el = Some raw /\ PyStr.strip raw = body)
  /\ title <> EmptyString /\ link <> EmptyString /\ body <> EmptyString.

(** The response makes the fetch fail: the request raised a
    [RequestException], or the status is one on which [raise_for_status]
    raises. *)
Definition fetch_fails (r : fetch) : Prop :=
  match r with
  | Escapes _ => False
  | Fails _ => True
  | Responds resp => 400 <= status_code resp < 600
  end.

(** A transport-level failure in the wording of the specification: a
    raised request exception, or a status outside 200 to 299. *)
Definition transport_failure (r : fetch) : Prop :=
  match r with
  | Escapes _ => False
  | Fails _ => True
  | Responds resp => ~ (200 <= status_code resp < 300)
  end.

(** The message logged for a failed fetch. *)
Definition fetch_error_text (r : fetch) : string :=
  match r with
  | Escapes _ => EmptyString
  | Fails e => str_of_RequestException e
  | Responds resp =>
      match raise_for_status resp with
      | Some e => str_of_RequestException e
      | None => EmptyString
      end
  end.

(** *** The feed list in the words of the specification *)

(** [t] is [line] without its surrounding white space. *)
Definition trimmed_of (line t : string) : Prop :=
  exists a b,
    line = (a ++ t ++ b)%string
    /\ PyStr.all_space a = true /\ PyStr.all_space b = true
    /\ (forall c r, t = String c r -> PyStr.isspace c = false)
    /\ (forall r c, t = (r ++ String c EmptyString)%string -> PyStr.isspace c = false).

(** A blank line holds nothing but white space. *)
Definition blank (line : string) : bool := PyStr.all_space line.


(** *** The start of a run *)

(** The interactions of [main] before its loop over the feeds. *)
Definition startup_classes : list call_class :=
  [COpen; CLog; CGetenv; CPs; CPull; CCreate; CShow].

(** The computation did not return: it exited with status 1 or let an
    exception escape. *)
Definition stopped {A} (r : outcome A) : Prop :=
  r = Exit 1 \/ exists e, r = Raise e.

(** A step of the start: startup interactions only, and it returns or,
    unless [sound] is set, exits with status 1 or lets an exception
    escape. *)
Definition starts (sound : bool) (k : kind) (d : history) : Prop :=
  only startup_classes k d
  /\ (k = KRet \/ (sound = false /\ (k = KExit 1 \/ exists e, k = KRaise e))).

(** [m] either stops (unless [sound] is set) or hands over to [K client]
    for some client, after startup interactions only. *)
Definition reaches (sound : bool) (K : string -> M unit) (m : M unit) : Prop :=
  forall s, exists d,
    only startup_classes KRet d
    /\ ((sound = false /\ stopped (fst (m s))
         /\ trace (snd (m s)) = trace s ++ d)
        \/ (exists client s1, trace s1 = trace s ++ d /\ m s = K client s1)).

(** Every address makes a client. *)
Definition clients_are_built (w : world) : Prop :=
  forall host, client_new w host = None.

(** The model server answers every call of the start. *)
Definition model_server_up (w : world) : Prop :=
  (forall h host, client_ps w h host = None)
  /\ (forall h host model, client_pull w h host model = None)
  /\ (forall h host model from_ system,
        client_create w h host model from_ system = None)
  /\ (forall h host model, client_show w h host model = None).

(** The state in which [get_feed_content] leaves a file that is no XML. *)
Definition after_parse_error (w : world) (file e : string) (s : state) : state :=
  mkState
    (trace s ++
     [Now (time_now w (trace s));
      Log CRITICAL ("Failed to parse XML from " ++ file ++ ": " ++ e)])
    (files s).

(** The readings of the Slack token in a trace. *)
Definition token_reads (d : history) : history :=
  filter (fun e => match e with
                   | Getenv name _ => String.eqb name "SLACK_API_TOKEN"
                   | _ => false
                   end) d.

(** *** Vocabulary of the further properties *)

(** The records that the loop over the items leaves in the log: one
    WARNING for each item whose [pubDate] is there but gives no UTC day,
    because it does not parse or because its UTC value is out of range. *)
Definition date_warnings (w : world) (file : string) (items : list element)
  : history :=
  flat_map
    (fun item =>
       match ElementPath.find "pubDate" item with
       | Some p =>
           match pub_date_of w (text p) with
           | inl e =>
               [Log WARNING
                  ("Skipping article due to date parsing error in "
                     ++ file ++ ": " ++ e)]
           | inr _ => []
           end
       | None => []
       end) items.

(** The values [main] reads from the environment, with their defaults. *)
Definition effective_host (w : world) : string :=
  match environ w "OLLAMA_HOST" with
  | Some v => v
  | None => "http://localhost:11434"
  end.

Definition effective_system_ops (w : world) : string :=
  match environ w "SYSTEM_OPS" with Some v => v | None => EmptyString end.

Definition effective_model (w : world) : string :=
  match environ w "MODEL" with Some v => v | None => "llama3.2" end.

(** The calls of a trace to the model server, the HTTP peers and Slack:
    everything but log records, environment and clock readings and the
    opening of feeds.txt. *)
Definition remote_calls (d : history) : history :=
  filter (fun e => match class_of e with
                   | CLog | COpen | CGetenv | CNow => false
                   | _ => true
                   end) d.

(** The records that precede the calls of [exit] in the script. *)
Definition fatal_record (e : event) : Prop :=
  e = Log CRITICAL
        "feeds.txt not found. Please create the file with feed URLs."
  \/ (exists host msg,
        e = Log CRITICAL
              ("Failed to connect to AI server at " ++ host ++ ": " ++ msg))
  \/ (exists msg, e = Log ERROR ("AI model initialization failed: " ++ msg))
  \/ (exists msg, e = Log ERROR ("AI processing failed: " ++ msg))
  \/ e = Log ERROR
           "Slack API token is missing. Set SLACK_API_TOKEN in your environment.".

(** An exit has status 1 and comes right after one of these records. *)
Definition exits_announced (k : kind) (d : history) : Prop :=
  match k with
  | KExit code =>
      code = 1 /\ exists d0 e, d = d0 ++ [e] /\ fatal_record e
  | _ => True
  end.

(** The item yields an article: it is dated [today] and has the three
    fields. *)
Definition qualifies (w : world) (today : Z) (item : element) : Prop :=
  dated w item today /\ exists a, populated item a.

(** [articles] are the articles of the items that yield one, one article
    for each such item, in the order of the items. *)
Inductive extracted (w : world) (today : Z)
  : list element -> list article -> Prop :=
| extracted_nil : extracted w today [] []
| extracted_keep item items a articles :
    dated w item today -> populated item a ->
    extracted w today items articles ->
    extracted w today (item :: items) (a :: articles)
| extracted_skip item items articles :
    ~ qualifies w today item ->
    extracted w today items articles ->
    extracted w today (item :: items) articles.


(** The record that [send_slack_message] logs for an answer of Slack. *)
Definition delivery_record (title : string) (r : string + SlackResponse)
  : event :=
  match r with
  | inl e => Log ERROR ("Failed to send Slack message: " ++ e)
  | inr resp =>
      if ok resp then Log INFO ("Sent Slack message: " ++ title)
      else Log ERROR ("Slack API error: " ++ error resp)
  end.

(** Summarize and notify calls in pairs: each notify call follows a
    summarize call that answered, and carries that answer. *)
Inductive in_pairs : history -> Prop :=
| in_pairs_nil : in_pairs []
| in_pairs_cons client model prompt summary token title link r rest :
    in_pairs rest ->
    in_pairs
      (ClientGenerate client model prompt (inr summary)
       :: ChatPostMessage token (slack_payload title summary link) r :: rest).

(** The summarize and notify calls come in pairs, except that the run may
    end, with status 1, on a summarize call left without its notify call. *)
Definition pairs_or_stops (k : kind) (d : history) : Prop :=
  in_pairs (gateway_calls d)
  \/ (k = KExit 1
      /\ exists pre g,
           gateway_calls d = pre ++ [g]
           /\ in_pairs pre /\ is_generate g = true).

(** *** Two states seen alike *)

(** The same history. *)
Definition same_trace (s s' : state) : Prop := trace s = trace s'.

(** The same history and the same contents of raw_feed.xml. *)
Definition agree (s s' : state) : Prop :=
  trace s = trace s'
  /\ files s "raw_feed.xml" = files s' "raw_feed.xml".

(** From states related by [R], [m] ends the same way with the same value
    and leaves states related by [R]. *)
Definition related (R : state -> state -> Prop) {A} (m : M A) : Prop :=
  forall s s', R s s' -> fst (m s) = fst (m s') /\ R (snd (m s)) (snd (m s')).

Definition trace_ok (R : state -> state -> Prop) : Prop :=
  forall s s', R s s' -> trace s = trace s'.

Definition emit_ok (R : state -> state -> Prop) : Prop :=
  forall s s' e, R s s' ->
    R (mkState (trace s ++ [e]) (files s)) (mkState (trace s' ++ [e]) (files s')).

(** * Properties *)

(** ** Trimming *)

Module PyStrFacts.
Import PyStr.

Lemma lstrip_split (s : string) :
  exists a, s = (a ++ lstrip s)%string /\ all_space a = true.
Proof.
  induction s as [|c s [a [Hs Ha]]]; simpl.
  - exists EmptyString. split; reflexivity.
  - destruct (isspace c) eqn:Hc.
    + exists (String c a). simpl. rewrite Hc, Ha, <- Hs. split; reflexivity.
    + exists EmptyString. split; reflexivity.
Qed.

Lemma lstrip_head (s : string) c r :
  lstrip s = String c r -> isspace c = false.
Proof.
  induction s as [|a s IH]; simpl; [discriminate|].
  destruct (isspace a) eqn:Ha; [exact IH|].
  intros H; injection H as -> _. exact Ha.
Qed.

Lemma lstrip_all_space (s : string) : all_space s = true -> lstrip s = EmptyString.
Proof.
  induction s as [|a s IH]; simpl; [reflexivity|].
  destruct (isspace a); simpl; [exact IH | discriminate].
Qed.

Lemma lstrip_not_all_space (s : string) :
  all_space s = false -> exists c r, lstrip s = String c r.
Proof.
  induction s as [|a s IH]; simpl; [discriminate|].
  destruct (isspace a); simpl; [exact IH|].
  intros _. exists a, s. reflexivity.
Qed.

Lemma rstrip_split (s : string) :
  exists b, s = (rstrip s ++ b)%string /\ all_space b = true.
Proof.
  induction s as [|c s [b [Hs Hb]]]; simpl.
  - exists EmptyString. split; reflexivity.
  - destruct (rstrip s) as [|c' r'] eqn:Hr.
    + simpl in Hs. subst b. destruct (isspace c) eqn:Hc.
      * exists (String c s). simpl. rewrite Hc, Hb. split; reflexivity.
      * exists s. split; [reflexivity | exact Hb].
    + exists b. simpl. split; [|exact Hb].
      f_equal. exact Hs.
Qed.

Lemma rstrip_head (s : string) c :
  isspace c = false -> exists r', rstrip (String c s) = String c r'.
Proof.
  intros Hc. simpl. destruct (rstrip s) as [|c' r'].
  - rewrite Hc. exists EmptyString. reflexivity.
  - exists (String c' r'). reflexivity.
Qed.

Lemma rstrip_last (s : string) : forall r c,
  rstrip s = (r ++ String c EmptyString)%string -> isspace c = false.
Proof.
  induction s as [|a s IH]; intros r c; simpl.
  - destruct r; discriminate.
  - destruct (rstrip s) as [|c' r'] eqn:Hr.
    + destruct (isspace a) eqn:Ha.
      * destruct r; discriminate.
      * destruct r as [|x r]; simpl; intros H.
        -- injection H as ->. exact Ha.
        -- injection H as _ H. destruct r; discriminate.
    + destruct r as [|x r]; simpl; intros H.
      * discriminate.
      * injection H as _ H. exact (IH r c H).
Qed.

(** [strip] removes exactly the surrounding white space. *)
Lemma strip_trimmed (s : string) : trimmed_of s (strip s).
Proof.
  unfold trimmed_of, strip.
  destruct (lstrip_split s) as [a [Hs Ha]].
  destruct (rstrip_split (lstrip s)) as [b [Hl Hb]].
  exists a, b. repeat split; try assumption.
  - rewrite <- Hl. exact Hs.
  - intros c r Hc.
    destruct (lstrip s) as [|c0 r0] eqn:E; [discriminate|].
    pose proof (lstrip_head s c0 r0 E) as H0.
    destruct (rstrip_head r0 c0 H0) as [r' Hr'].
    rewrite Hr' in Hc. injection Hc as -> _. exact H0.
  - intros r c. apply rstrip_last.
Qed.

(** The test [if url.strip()] rejects exactly the blank lines. *)
Lemma truthy_strip (s : string) : truthy (strip s) = negb (blank s).
Proof.
  unfold strip, blank. destruct (all_space s) eqn:E; simpl.
  - rewrite (lstrip_all_space s E). reflexivity.
  - destruct (lstrip_not_all_space s E) as [c [r Hl]].
    rewrite Hl.
    destruct (rstrip_head r c (lstrip_head s c r Hl)) as [r' ->].
    reflexivity.
Qed.

Lemma truthy_nonempty (s : string) : s <> EmptyString -> truthy s = true.
Proof. destruct s; [congruence | reflexivity]. Qed.

End PyStrFacts.

(** ** Reasoning on traces *)

Section TraceLogic.

Variable Q : kind -> history -> Prop.
Hypothesis Q_nil : Q KRet [].
Hypothesis Q_seq : forall d1 k d2, Q KRet d1 -> Q k d2 -> Q k (d1 ++ d2).

Lemma sat_ret {A} (a : A) : satisfies Q (ret a).
Proof.
  intros s. exists []. simpl. rewrite app_nil_r. split; [reflexivity | exact Q_nil].
Qed.

Lemma sat_bind {A B} (m : M A) (k : A -> M B) :
  satisfies Q m -> (forall a, satisfies Q (k a)) -> satisfies Q (bind m k).
Proof.
  intros Hm Hk s. destruct (Hm s) as [d1 [E1 Q1]]. unfold bind.
  destruct (m s) as [[a|c|e] s1]; simpl in *.
  - destruct (Hk a s1) as [d2 [E2 Q2]]. exists (d1 ++ d2).
    rewrite E2, E1, app_assoc. split; [reflexivity | apply Q_seq; assumption].
  - exists d1. split; assumption.
  - exists d1. split; assumption.
Qed.

Lemma sat_exit {A} (c : Z) : Q (KExit c) [] -> satisfies Q (@exit A c).
Proof.
  intros H s. exists []. simpl. rewrite app_nil_r. split; [reflexivity | exact H].
Qed.

Lemma sat_raise {A} (e : exception) :
  Q (KRaise e) [] -> satisfies Q (@raise A e).
Proof.
  intros H s. exists []. simpl. rewrite app_nil_r. split; [reflexivity | exact H].
Qed.

Lemma sat_emit (e : event) : Q KRet [e] -> satisfies Q (emit e).
Proof. intros H s. exists [e]. simpl. split; [reflexivity | exact H]. Qed.

Lemma sat_call {A} (answer : history -> A) (ev : A -> event) :
  (forall r, Q KRet [ev r]) -> satisfies Q (call answer ev).
Proof.
  intros H s. exists [ev (answer (trace s))]. simpl.
  split; [reflexivity | apply H].
Qed.

Lemma sat_ask {A} (answer : history -> A) : satisfies Q (ask answer).
Proof.
  intros s. exists []. simpl. rewrite app_nil_r. split; [reflexivity | exact Q_nil].
Qed.

Lemma sat_write_file (name data : string) :
  satisfies Q (write_file name data).
Proof.
  intros s. exists []. simpl. rewrite app_nil_r. split; [reflexivity | exact Q_nil].
Qed.

Lemma sat_read_file (name : string) : satisfies Q (read_file name).
Proof.
  intros s. exists []. simpl. rewrite app_nil_r. split; [reflexivity | exact Q_nil].
Qed.

Lemma sat_for_each {A} (body : A -> M unit) (l : list A) :
  (forall x, satisfies Q (body x)) -> satisfies Q (for_each body l).
Proof.
  intros Hb. induction l as [|x l IH]; simpl.
  - apply sat_ret.
  - apply sat_bind; [apply Hb | intros _; exact IH].
Qed.

Lemma sat_for_fold {A B} (body : A -> B -> M B) (l : list A) :
  (forall x acc, satisfies Q (body x acc)) ->
  forall acc, satisfies Q (for_fold body l acc).
Proof.
  intros Hb. induction l as [|x l IH]; intros acc; simpl.
  - apply sat_ret.
  - apply sat_bind; [apply Hb | intros acc'; apply IH].
Qed.

End TraceLogic.

Lemma satisfies_weaken (Q1 Q2 : kind -> history -> Prop) {A} (m : M A) :
  (forall k d, Q1 k d -> Q2 k d) -> satisfies Q1 m -> satisfies Q2 m.
Proof.
  intros H Hm s. destruct (Hm s) as [d [E Hd]]. exists d. split; auto.
Qed.

(** *** Which interactions each function has *)

Lemma only_nil (L : list call_class) (k : kind) : only L k [].
Proof. constructor. Qed.

Lemma only_seq (L : list call_class) d1 (k : kind) d2 :
  only L KRet d1 -> only L k d2 -> only L k (d1 ++ d2).
Proof. unfold only. intros H1 H2. apply Forall_app. split; assumption. Qed.

Lemma only_weaken (L1 L2 : list call_class) {A} (m : M A) :
  incl L1 L2 -> satisfies (only L1) m -> satisfies (only L2) m.
Proof.
  intros HL. apply satisfies_weaken. intros k d H.
  unfold only in *. eapply Forall_impl; [|exact H]. intros e He. apply HL, He.
Qed.

Create HintDb alphabet.

Ltac only_single := constructor; [simpl; tauto | constructor].
Ltac solve_incl := let x := fresh in let H := fresh in
                   intros x H; simpl in *; tauto.

(** Walks through a computation with the rules above; [nilT], [seqT],
    [stopT] and [singleT] close the side conditions on the empty trace, on
    sequencing, on an exit or an escaping exception, and on one entry;
    [knownT] is tried on a function of the script. *)
Ltac sat_walk nilT seqT stopT singleT knownT :=
  repeat (intros;
    lazymatch goal with
    | |- satisfies _ (bind _ _) => apply sat_bind; [seqT | |]
    | |- satisfies _ (ret _) => apply sat_ret; nilT
    | |- satisfies _ (exit _) => apply sat_exit; stopT
    | |- satisfies _ (raise _) => apply sat_raise; stopT
    | |- satisfies _ (logging _ _) => apply sat_emit; singleT
    | |- satisfies _ (emit _) => apply sat_emit; singleT
    | |- satisfies _ (call _ _) => apply sat_call; intros; singleT
    | |- satisfies _ (ask _) => apply sat_ask; nilT
    | |- satisfies _ (write_file _ _) => apply sat_write_file; nilT
    | |- satisfies _ (read_file _) => apply sat_read_file; nilT
    | |- satisfies _ (for_each _ _) => apply sat_for_each; [nilT | seqT |]
    | |- satisfies _ (for_fold _ _ _) => apply sat_for_fold; [nilT | seqT |]
    | |- satisfies _ (match ?x with _ => _ end) => destruct x
    | |- satisfies _ _ => knownT
    end).

Ltac alphabet :=
  sat_walk ltac:(apply only_nil) ltac:(apply only_seq) ltac:(apply only_nil)
    ltac:(only_single)
    ltac:(eapply only_weaken; [| solve [auto with alphabet]]; solve_incl).

Lemma os_getenv_only w name : satisfies (only [CGetenv]) (os_getenv w name).
Proof. unfold os_getenv. alphabet. Qed.
#[export] Hint Resolve os_getenv_only : alphabet.

Lemma os_getenv_default_only w name default :
  satisfies (only [CGetenv]) (os_getenv_default w name default).
Proof. unfold os_getenv_default. alphabet. Qed.
#[export] Hint Resolve os_getenv_default_only : alphabet.

Lemma datetime_now_only w : satisfies (only [CNow]) (datetime_now w).
Proof. unfold datetime_now. alphabet. Qed.
#[export] Hint Resolve datetime_now_only : alphabet.

Lemma ai_connect_only w host :
  satisfies (only [CPs; CLog]) (ai_connect w host).
Proof. unfold ai_connect, Client. alphabet. Qed.
#[export] Hint Resolve ai_connect_only : alphabet.

Lemma ai_model_only w client model system_ops :
  satisfies (only [CPull; CCreate; CShow; CLog])
    (ai_model w client model system_ops).
Proof. unfold ai_model. alphabet. Qed.
#[export] Hint Resolve ai_model_only : alphabet.

Lemma ai_summary_only w client text :
  satisfies (only [CGenerate; CLog]) (ai_summary w client text).
Proof. unfold ai_summary. alphabet. Qed.
#[export] Hint Resolve ai_summary_only : alphabet.

Lemma send_slack_message_only w title message link :
  satisfies (only [CGetenv; CPost; CLog])
    (send_slack_message w title message link).
Proof. unfold send_slack_message. alphabet. Qed.
#[export] Hint Resolve send_slack_message_only : alphabet.

Lemma get_feed_list_only w : satisfies (only [COpen; CLog]) (get_feed_list w).
Proof. unfold get_feed_list. alphabet. Qed.
#[export] Hint Resolve get_feed_list_only : alphabet.

Lemma save_feed_raw_only w url :
  satisfies (only [CGet; CLog]) (save_feed_raw w url).
Proof. unfold save_feed_raw. alphabet. Qed.
#[export] Hint Resolve save_feed_raw_only : alphabet.

Lemma item_step_only w file today item articles :
  satisfies (only [CLog]) (item_step w file today item articles).
Proof. unfold item_step. alphabet. Qed.
#[export] Hint Resolve item_step_only : alphabet.

Lemma get_feed_content_only w file :
  satisfies (only [CNow; CLog]) (get_feed_content w file).
Proof. unfold get_feed_content. alphabet. Qed.
#[export] Hint Resolve get_feed_content_only : alphabet.

Lemma article_step_only w client a :
  satisfies (only [CGenerate; CGetenv; CPost; CLog]) (article_step w client a).
Proof. unfold article_step. alphabet. Qed.
#[export] Hint Resolve article_step_only : alphabet.

(** *** The start of [main] *)

Lemma starts_nil sound : starts sound KRet [].
Proof. split; [apply only_nil | left; reflexivity]. Qed.

Lemma starts_seq sound d1 k d2 :
  starts sound KRet d1 -> starts sound k d2 -> starts sound k (d1 ++ d2).
Proof.
  intros [H1 _] [H2 Hk]. split; [apply only_seq; assumption | exact Hk].
Qed.

Lemma starts_exit : starts false (KExit 1) [].
Proof. split; [apply only_nil | right; split; [reflexivity | left; reflexivity]]. Qed.

Lemma starts_raise e : starts false (KRaise e) [].
Proof.
  split; [apply only_nil | right; split; [reflexivity | right; exists e; reflexivity]].
Qed.

Ltac starts_single :=
  split; [constructor; [simpl; tauto | constructor] | left; reflexivity].

Ltac startup :=
  sat_walk ltac:(apply starts_nil) ltac:(apply starts_seq)
    ltac:(first [apply starts_exit | apply starts_raise])
    ltac:(starts_single) ltac:(fail).

Lemma get_feed_list_starts w : satisfies (starts false) (get_feed_list w).
Proof. unfold get_feed_list. startup. Qed.

Lemma get_feed_list_starts_present w lines sound :
  feeds_txt w = Lines lines -> satisfies (starts sound) (get_feed_list w).
Proof.
  intros H s. unfold get_feed_list, bind, call, logging, emit, ret. simpl.
  rewrite H. simpl. destruct (map _ _); simpl.
  - eexists [_; _]. rewrite <- app_assoc. split; [reflexivity|].
    split; [repeat constructor; simpl; tauto | left; reflexivity].
  - eexists [_]. split; [reflexivity|].
    split; [repeat constructor; simpl; tauto | left; reflexivity].
Qed.

Lemma os_getenv_default_starts sound w name default :
  satisfies (starts sound) (os_getenv_default w name default).
Proof. unfold os_getenv_default, os_getenv. startup. Qed.

Lemma ai_connect_starts w host : satisfies (starts false) (ai_connect w host).
Proof. unfold ai_connect, Client. startup. Qed.

Lemma ai_connect_starts_up w host :
  client_new w host = None -> model_server_up w ->
  satisfies (starts true) (ai_connect w host).
Proof.
  intros Hn [H _] s.
  unfold ai_connect, Client, bind, call, logging, emit, ret. rewrite Hn. simpl.
  rewrite H. simpl. eexists [_; _]. rewrite <- app_assoc.
  split; [reflexivity|].
  split; [repeat constructor; simpl; tauto | left; reflexivity].
Qed.

Lemma ai_model_starts w client model system_ops :
  satisfies (starts false) (ai_model w client model system_ops).
Proof. unfold ai_model. startup. Qed.

Lemma ai_model_starts_up w client model system_ops :
  model_server_up w ->
  satisfies (starts true) (ai_model w client model system_ops).
Proof.
  intros [_ [H1 [H2 H3]]] s.
  unfold ai_model, bind, call, logging, emit, ret. simpl.
  rewrite H1. simpl. rewrite H2. simpl. rewrite H3. simpl.
  eexists [_; _; _; _; _]. rewrite <- !app_assoc.
  split; [reflexivity|].
  split; [repeat constructor; simpl; tauto | left; reflexivity].
Qed.

Lemma reaches_here sound (K : string -> M unit) client :
  reaches sound K (K client).
Proof.
  intros s. exists []. split; [apply only_nil|].
  right. exists client, s. rewrite app_nil_r. split; reflexivity.
Qed.

Lemma reaches_bind sound (K : string -> M unit) {A} (m : M A)
    (k : A -> M unit) :
  satisfies (starts sound) m -> (forall a, reaches sound K (k a)) ->
  reaches sound K (bind m k).
Proof.
  intros Hm Hk s. destruct (Hm s) as [d1 [E1 [O1 K1]]]. unfold bind.
  destruct (m s) as [[a|c|e] s0]; simpl in *.
  - destruct (Hk a s0) as [d2 [O2 H2]]. exists (d1 ++ d2).
    split; [apply only_seq; assumption|].
    rewrite app_assoc, <- E1. exact H2.
  - destruct K1 as [K1|[Hs [K1|[x K1]]]]; try discriminate. injection K1 as ->.
    exists d1. split; [exact O1|]. left.
    split; [exact Hs|]. split; [left; reflexivity | exact E1].
  - destruct K1 as [K1|[Hs [K1|[x K1]]]]; try discriminate.
    exists d1. split; [exact O1|]. left.
    split; [exact Hs|]. split; [right; exists e; reflexivity | exact E1].
Qed.

(** A run either stops during the start (it exits with status 1 or an
    exception escapes), or ends there normally (when there is no feed), or
    enters the loop over the feeds that the list holds.  It does not stop
    when the parts of the start are sound. *)
Lemma main_cases_gen sound w s :
  satisfies (starts sound) (get_feed_list w) ->
  (forall host, satisfies (starts sound) (ai_connect w host)) ->
  (forall client model system_ops,
     satisfies (starts sound) (ai_model w client model system_ops)) ->
  exists d,
    only startup_classes KRet d
    /\ ((sound = false /\ stopped (fst (main w s))
         /\ trace (snd (main w s)) = trace s ++ d)
        \/ (fst (main w s) = Ret tt /\ trace (snd (main w s)) = trace s ++ d
            /\ fst (get_feed_list w s) = Ret [])
        \/ (exists client urls s1,
              fst (get_feed_list w s) = Ret urls
              /\ trace s1 = trace s ++ d
              /\ main w s = for_each (feed_step w client) urls s1)).
Proof.
  intros Hlist Hconnect Hmodel.
  remember (main w s) as ms eqn:Hms.
  unfold main in Hms. unfold bind at 1 in Hms.
  destruct (Hlist s) as [d0 [E0 [O0 K0]]].
  destruct (get_feed_list w s) as [[urls|c|e] s0];
    cbn [fst snd kind_of] in E0, K0 |- *.
  - destruct urls as [|u us]; cbv beta iota in Hms.
    + exists (d0 ++ [Log INFO "No feed URLs found. Exiting."]).
      split; [apply only_seq; [exact O0 | only_single]|].
      right; left. subst ms. unfold logging, emit. simpl.
      rewrite E0, app_assoc. auto.
    + match type of Hms with
      | ms = ?m s0 =>
          assert (H : reaches sound
                        (fun client => for_each (feed_step w client) (u :: us))
                        m)
      end.
      { repeat (apply reaches_bind;
                [ first [ apply os_getenv_default_starts
                        | apply Hconnect
                        | apply Hmodel
                        | match goal with
                          | |- satisfies _ (if ?b then _ else _) =>
                              destruct b;
                              sat_walk ltac:(apply starts_nil)
                                ltac:(apply starts_seq) ltac:(fail)
                                ltac:(starts_single) ltac:(fail)
                          end ]
                | intros ]).
        apply (reaches_here sound
                 (fun client => for_each (feed_step w client) (u :: us))). }
      destruct (H s0) as [d1 [O1 H1]]. rewrite <- Hms in H1.
      exists (d0 ++ d1).
      split; [apply only_seq; assumption|].
      rewrite app_assoc, <- E0.
      destruct H1 as [H1 | [client [s1 [E1 H1]]]].
      * left. exact H1.
      * right; right. exists client, (u :: us), s1. auto.
  - destruct K0 as [K0|[Hs [K0|[x K0]]]]; try discriminate. injection K0 as ->.
    exists d0. split; [exact O0|]. left. subst ms.
    split; [exact Hs|]. split; [left; reflexivity | exact E0].
  - destruct K0 as [K0|[Hs [K0|[x K0]]]]; try discriminate.
    exists d0. split; [exact O0|]. left. subst ms.
    split; [exact Hs|]. split; [right; exists e; reflexivity | exact E0].
Qed.

Lemma main_cases w s :
  exists d,
    only startup_classes KRet d
    /\ ((stopped (fst (main w s)) /\ trace (snd (main w s)) = trace s ++ d)
        \/ (fst (main w s) = Ret tt /\ trace (snd (main w s)) = trace s ++ d
            /\ fst (get_feed_list w s) = Ret [])
        \/ (exists client urls s1,
              fst (get_feed_list w s) = Ret urls
              /\ trace s1 = trace s ++ d
              /\ main w s = for_each (feed_step w client) urls s1)).
Proof.
  destruct (main_cases_gen false w s (get_feed_list_starts w)
              (ai_connect_starts w) (ai_model_starts w))
    as [d [O [[_ H] | [H | H]]]]; exists d; split; auto.
Qed.

(** With feeds.txt read, a client built and the model server up, a run
    enters the loop over the feeds unless the list is empty. *)
Lemma main_cases_up w lines s :
  feeds_txt w = Lines lines -> clients_are_built w -> model_server_up w ->
  exists d,
    only startup_classes KRet d
    /\ ((fst (main w s) = Ret tt /\ trace (snd (main w s)) = trace s ++ d
         /\ fst (get_feed_list w s) = Ret [])
        \/ (exists client urls s1,
              fst (get_feed_list w s) = Ret urls
              /\ trace s1 = trace s ++ d
              /\ main w s = for_each (feed_step w client) urls s1)).
Proof.
  intros Hf Hnew Hup.
  destruct (main_cases_gen true w s
              (get_feed_list_starts_present w lines true Hf)
              (fun host => ai_connect_starts_up w host (Hnew host) Hup)
              (fun c m o => ai_model_starts_up w c m o Hup))
    as [d [O [[X _] | [H | H]]]]; [discriminate| |]; exists d; split; auto.
Qed.

(** ** Fetching *)

Lemma raise_for_status_fails resp :
  400 <= status_code resp < 600 ->
  exists e, raise_for_status resp = Some e.
Proof.
  intros H. unfold raise_for_status.
  destruct (status_code resp <? 500) eqn:E.
  - exists (HTTPError "Client Error").
    replace (400 <=? status_code resp) with true by (symmetry; apply Z.leb_le; lia).
    reflexivity.
  - exists (HTTPError "Server Error").
    apply Z.ltb_ge in E.
    replace (500 <=? status_code resp) with true by (symmetry; apply Z.leb_le; lia).
    replace (status_code resp <? 600) with true by (symmetry; apply Z.ltb_lt; lia).
    rewrite andb_false_r. reflexivity.
Qed.

Lemma raise_for_status_passes resp :
  ~ (400 <= status_code resp < 600) -> raise_for_status resp = None.
Proof.
  intros H. unfold raise_for_status.
  destruct (Z.leb_spec 400 (status_code resp));
    destruct (Z.ltb_spec (status_code resp) 500);
    destruct (Z.leb_spec 500 (status_code resp));
    destruct (Z.ltb_spec (status_code resp) 600);
    simpl; try reflexivity; exfalso; apply H; lia.
Qed.

(** A failed fetch: two entries enter the trace, no file is written, and
    the function returns [None]. *)
Lemma save_feed_raw_failed w url s :
  fetch_fails (requests_get w (trace s) url 20) ->
  save_feed_raw w url s =
    (Ret None,
     mkState
       (trace s ++
        [RequestsGet url 20 (requests_get w (trace s) url 20);
         Log ERROR ("Failed to fetch " ++ url ++ ": "
                    ++ fetch_error_text (requests_get w (trace s) url 20))])
       (files s)).
Proof.
  intros H. unfold save_feed_raw, bind, call, logging, emit, ret. simpl.
  destruct (requests_get w (trace s) url 20) as [x|e|resp]; simpl in *.
  - contradiction.
  - rewrite <- app_assoc. reflexivity.
  - destruct (raise_for_status_fails resp H) as [e He]. rewrite He. simpl.
    rewrite <- app_assoc. reflexivity.
Qed.

(** A fetch that succeeds writes the body to raw_feed.xml and returns the
    name. *)
Lemma save_feed_raw_ok w url s resp :
  requests_get w (trace s) url 20 = Responds resp ->
  raise_for_status resp = None ->
  write_fails w (trace s ++ [RequestsGet url 20 (Responds resp)])
    "raw_feed.xml" = None ->
  save_feed_raw w url s =
    (Ret (Some "raw_feed.xml"),
     mkState (trace s ++ [RequestsGet url 20 (Responds resp)])
       (fun n => if String.eqb n "raw_feed.xml" then Some (content resp)
                 else files s n)).
Proof.
  intros H1 H2 H3. unfold save_feed_raw, bind, call, ask, write_file, ret.
  simpl. rewrite H1, H2. simpl. rewrite H3. reflexivity.
Qed.

(** C5 as stated does not hold: a feed that answers with status 300 has a
    status outside 200 to 299, yet the fetch returns the file name, not a
    failure value. *)
Lemma C5_status_300_is_not_a_failure_value :
  transport_failure (requests_get Cases.multiple_choices [] Sample.url1 20)
  /\ fst (save_feed_raw Cases.multiple_choices Sample.url1 initial)
     = Ret (Some "raw_feed.xml").
Proof.
  split.
  - simpl. lia.
  - reflexivity.
Qed.

(** C5, amended: when the request raises (timeout, DNS or connection
    failure, any other request exception) or is answered with a status from
    400 to 599, the fetch returns [None] without exiting or raising, and the
    loop over the feeds goes on with the feeds listed after the failed one,
    from a state that differs only by the three entries logged for that
    feed. *)
Theorem C5_failed_fetch_skips_only_that_feed w client url later s :
  let s1 := mkState (trace s ++ [Log INFO ("Processing feed: " ++ url)])
              (files s) in
  let r := requests_get w (trace s1) url 20 in
  fetch_fails r ->
  fst (save_feed_raw w url s1) = Ret None
  /\ for_each (feed_step w client) (url :: later) s =
     for_each (feed_step w client) later
       (mkState
          (trace s ++
           [Log INFO ("Processing feed: " ++ url);
            RequestsGet url 20 r;
            Log ERROR ("Failed to fetch " ++ url ++ ": "
                       ++ fetch_error_text r)])
          (files s)).
Proof.
  intros s1 r H. pose proof (save_feed_raw_failed w url s1 H) as E.
  split.
  - rewrite E. reflexivity.
  - simpl for_each. unfold bind at 1. unfold feed_step at 1.
    unfold bind at 1. unfold logging at 1, emit at 1.
    fold s1. unfold bind at 1. rewrite E. cbn [ret].
    f_equal. subst r. unfold s1. simpl trace. simpl files.
    rewrite <- app_assoc. reflexivity.
Qed.

Lemma C5_witness :
  fetch_fails
    (requests_get Sample.two_feeds
       (trace initial ++ [Log INFO ("Processing feed: " ++ Sample.url2)])
       Sample.url2 20)
  /\ fst (save_feed_raw Sample.two_feeds Sample.url2
            (mkState
               (trace initial ++ [Log INFO ("Processing feed: " ++ Sample.url2)])
               (files initial))) = Ret None.
Proof.
  assert (H : fetch_fails
    (requests_get Sample.two_feeds
       (trace initial ++ [Log INFO ("Processing feed: " ++ Sample.url2)])
       Sample.url2 20)) by exact I.
  split; [exact H|].
  exact (proj1 (C5_failed_fetch_skips_only_that_feed Sample.two_feeds
                  "http://localhost:11434" Sample.url2 [Sample.url1] initial H)).
Defined.

(** ** Parsing *)

Lemma get_feed_content_parse_error w file bytes e s :
  files s file = Some bytes ->
  etree_parse w bytes = inl e ->
  get_feed_content w file s = (Ret [], after_parse_error w file e s).
Proof.
  intros Hf He.
  unfold get_feed_content, datetime_now, read_file, bind, call, logging, emit,
    ret, after_parse_error.
  simpl. rewrite Hf, He. simpl. rewrite <- app_assoc. reflexivity.
Qed.

(** C6: a document that is no well-formed XML makes [get_feed_content] log
    the error at level CRITICAL and return the empty list, without exiting
    and without raising; in the loop over the feeds, once the document was
    fetched and stored, the run then goes on with the feeds listed after
    that one. *)
Theorem C6_parse_failure_is_feed_local w :
  (forall file bytes e s,
     files s file = Some bytes ->
     etree_parse w bytes = inl e ->
     get_feed_content w file s = (Ret [], after_parse_error w file e s))
  /\ (forall client url later s resp e,
        let s1 := mkState (trace s ++ [Log INFO ("Processing feed: " ++ url)])
                    (files s) in
        requests_get w (trace s1) url 20 = Responds resp ->
        raise_for_status resp = None ->
        write_fails w (trace s1 ++ [RequestsGet url 20 (Responds resp)])
          "raw_feed.xml" = None ->
        etree_parse w (content resp) = inl e ->
        exists s',
          for_each (feed_step w client) (url :: later) s =
          for_each (feed_step w client) later s'
          /\ trace s' =
             trace s ++
             [Log INFO ("Processing feed: " ++ url);
              RequestsGet url 20 (Responds resp);
              Now (time_now w
                     (trace s1 ++ [RequestsGet url 20 (Responds resp)]));
              Log CRITICAL ("Failed to parse XML from raw_feed.xml: " ++ e);
              Log INFO ("No new articles today from " ++ url)]).
Proof.
  split.
  - intros. apply get_feed_content_parse_error with (bytes := bytes); assumption.
  - intros client url later s resp e s1 Hget Hst Hwrite Hparse.
    pose proof (save_feed_raw_ok w url s1 resp Hget Hst Hwrite) as E.
    eexists. split.
    + simpl for_each. unfold bind at 1. unfold feed_step at 1.
      unfold bind at 1. unfold logging at 1, emit at 1.
      fold s1. unfold bind at 1. rewrite E.
      unfold bind at 1.
      rewrite (get_feed_content_parse_error w "raw_feed.xml" (content resp) e);
        [| reflexivity | exact Hparse].
      unfold logging, emit. reflexivity.
    + unfold after_parse_error, s1. simpl.
      repeat rewrite <- app_assoc. reflexivity.
Qed.

Lemma C6_witness :
  get_feed_content Cases.garbled "raw_feed.xml"
    (mkState [] (fun n => if String.eqb n "raw_feed.xml" then Some "oops"
                          else None))
  = (Ret [],
     after_parse_error Cases.garbled "raw_feed.xml"
       "Start tag expected, '<' not found, line 1, column 1"
       (mkState [] (fun n => if String.eqb n "raw_feed.xml" then Some "oops"
                             else None)))
  /\ exists s',
       for_each (feed_step Cases.garbled "http://localhost:11434")
         [Sample.url1; Sample.url2] initial
       = for_each (feed_step Cases.garbled "http://localhost:11434")
           [Sample.url2] s'
       /\ trace s' =
          trace initial ++
          [Log INFO ("Processing feed: " ++ Sample.url1);
           RequestsGet Sample.url1 20 (Responds (mkResponse 200 "oops"));
           Now (Sample.midnight + 12 * 3600);
           Log CRITICAL
             ("Failed to parse XML from raw_feed.xml: "
                ++ "Start tag expected, '<' not found, line 1, column 1");
           Log INFO ("No new articles today from " ++ Sample.url1)].
Proof.
  split.
  - apply (proj1 (C6_parse_failure_is_feed_local Cases.garbled)
             "raw_feed.xml" "oops"); reflexivity.
  - apply (proj2 (C6_parse_failure_is_feed_local Cases.garbled)
             "http://localhost:11434" Sample.url1 [Sample.url2] initial
             (mkResponse 200 "oops")
             "Start tag expected, '<' not found, line 1, column 1");
      reflexivity.
Defined.

(** ** The feed list *)

Lemma no_usable_entries lines :
  Forall (fun l => blank l = true) lines ->
  map PyStr.strip (filter (fun url => PyStr.truthy (PyStr.strip url)) lines) = [].
Proof.
  induction 1 as [|l lines Hl _ IH]; simpl; [reflexivity|].
  rewrite PyStrFacts.truthy_strip, Hl. simpl. exact IH.
Qed.

(** C8 as stated does not hold: a feeds.txt that exists but is not text
    in the expected encoding stops the process as well.  The exception is
    not a [FileNotFoundError], nothing catches it, and the process ends with
    a traceback and status 1 before anything is logged. *)
Lemma C8_unreadable_source_stops_the_process :
  feeds_txt Cases.undecodable_feeds_file <> Absent
  /\ run Cases.undecodable_feeds_file =
       (Raise
          (UnicodeDecodeError
             "'utf-8' codec can't decode byte 0xff in position 0: invalid start byte"),
        [OpenFeedsTxt (feeds_txt Cases.undecodable_feeds_file)])
  /\ exit_status (fst (run Cases.undecodable_feeds_file)) = 1.
Proof.
  split; [discriminate|]. split; reflexivity.
Qed.

(** C8, amended: the load exits with status 1, after a CRITICAL record,
    exactly when feeds.txt does not exist.  When the file exists but cannot
    be opened or read, the exception escapes from the load and from [main]:
    the process stops there too, with status 1 and nothing logged; the load
    raises in no other case.  When the file is read the load returns; when
    every line of it is blank, the load returns the empty list after a
    WARNING record, and the run ends there, normally (exit status 0), having
    done nothing else than log that there is no feed. *)
Theorem C8_load_stops_when_absent_or_unreadable w :
  (feeds_txt w = Absent ->
   forall s,
     get_feed_list w s =
       (Exit 1,
        mkState
          (trace s ++
           [OpenFeedsTxt Absent;
            Log CRITICAL
              "feeds.txt not found. Please create the file with feed URLs."])
          (files s)))
  /\ (forall s code, fst (get_feed_list w s) = Exit code ->
        code = 1 /\ feeds_txt w = Absent)
  /\ (forall e,
        feeds_txt w = Unreadable e ->
        (forall s,
           get_feed_list w s =
             (Raise e,
              mkState (trace s ++ [OpenFeedsTxt (Unreadable e)]) (files s)))
        /\ run w = (Raise e, [OpenFeedsTxt (Unreadable e)])
        /\ exit_status (fst (run w)) = 1)
  /\ (forall s e, fst (get_feed_list w s) = Raise e ->
        feeds_txt w = Unreadable e)
  /\ (forall lines,
        feeds_txt w = Lines lines ->
        forall s, exists urls, fst (get_feed_list w s) = Ret urls)
  /\ (forall lines,
        feeds_txt w = Lines lines ->
        Forall (fun l => blank l = true) lines ->
        (forall s,
           get_feed_list w s =
             (Ret [],
              mkState
                (trace s ++
                 [OpenFeedsTxt (Lines lines); Log WARNING "feeds.txt is empty."])
                (files s)))
        /\ run w =
             (Ret tt,
              [OpenFeedsTxt (Lines lines); Log WARNING "feeds.txt is empty.";
               Log INFO "No feed URLs found. Exiting."])
        /\ exit_status (fst (run w)) = 0).
Proof.
  assert (Hblank : forall lines,
            feeds_txt w = Lines lines ->
            Forall (fun l => blank l = true) lines ->
            forall s,
              get_feed_list w s =
                (Ret [],
                 mkState
                   (trace s ++
                    [OpenFeedsTxt (Lines lines);
                     Log WARNING "feeds.txt is empty."])
                   (files s))).
  { intros lines Hl Hb s.
    unfold get_feed_list, bind, call, logging, emit, ret. simpl.
    rewrite Hl, (no_usable_entries lines Hb). simpl.
    rewrite <- app_assoc. reflexivity. }
  assert (Hraise : forall e, feeds_txt w = Unreadable e ->
            forall s,
              get_feed_list w s =
                (Raise e,
                 mkState (trace s ++ [OpenFeedsTxt (Unreadable e)]) (files s))).
  { intros e He s. unfold get_feed_list, bind, call, raise. simpl.
    rewrite He. reflexivity. }
  split; [|split; [|split; [|split; [|split]]]].
  - intros Hnone s.
    unfold get_feed_list, bind, call, logging, emit, exit. simpl.
    rewrite Hnone. simpl. rewrite <- app_assoc. reflexivity.
  - intros s code.
    unfold get_feed_list, bind, call, logging, emit, exit, raise, ret. simpl.
    destruct (feeds_txt w) as [|e|file]; simpl.
    + intros H; injection H as <-. split; reflexivity.
    + discriminate.
    + destruct (map _ _); simpl; discriminate.
  - intros e He. split; [apply Hraise; exact He|].
    assert (R : run w = (Raise e, [OpenFeedsTxt (Unreadable e)])).
    { unfold run, main. unfold bind at 1. rewrite (Hraise e He initial).
      reflexivity. }
    rewrite R. split; reflexivity.
  - intros s e.
    unfold get_feed_list, bind, call, logging, emit, exit, raise, ret. simpl.
    destruct (feeds_txt w) as [|x|file]; simpl.
    + discriminate.
    + intros H; injection H as <-. reflexivity.
    + destruct (map _ _); simpl; discriminate.
  - intros lines Hl s.
    unfold get_feed_list, bind, call, logging, emit, ret. simpl.
    rewrite Hl. simpl. destruct (map _ _); eexists; reflexivity.
  - intros lines Hl Hb. split; [apply Hblank; assumption|].
    assert (R : run w =
                  (Ret tt,
                   [OpenFeedsTxt (Lines lines);
                    Log WARNING "feeds.txt is empty.";
                    Log INFO "No feed URLs found. Exiting."])).
    { unfold run, main. unfold bind at 1.
      rewrite (Hblank lines Hl Hb initial). reflexivity. }
    rewrite R. split; reflexivity.
Qed.

Lemma C8_witness :
  run Cases.blank_feeds_file =
    (Ret tt,
     [OpenFeedsTxt (Lines [PyStr.nl; ("   " ++ PyStr.nl)%string]);
      Log WARNING "feeds.txt is empty.";
      Log INFO "No feed URLs found. Exiting."])
  /\ fst (get_feed_list Cases.no_feeds_file initial) = Exit 1
  /\ exit_status (fst (run Cases.undecodable_feeds_file)) = 1.
Proof.
  split; [|split].
  - apply (proj1 (proj2
             (proj2 (proj2 (proj2 (proj2 (proj2
                (C8_load_stops_when_absent_or_unreadable
                   Cases.blank_feeds_file)))))
                [PyStr.nl; ("   " ++ PyStr.nl)%string] eq_refl
                ltac:(repeat constructor)))).
  - rewrite (proj1 (C8_load_stops_when_absent_or_unreadable
                      Cases.no_feeds_file) eq_refl initial).
    reflexivity.
  - apply (proj2 (proj2
             (proj1 (proj2 (proj2 (C8_load_stops_when_absent_or_unreadable
                                     Cases.undecodable_feeds_file)))
                (UnicodeDecodeError
                   "'utf-8' codec can't decode byte 0xff in position 0: invalid start byte")
                eq_refl))).
Defined.

(** C10: when the load returns the empty list, the run returns normally and
    its whole trace consists of the opening of feeds.txt and of log records:
    the model server is not contacted ([ps], [pull], [create], [show],
    [generate]), nothing is fetched and nothing is posted. *)
Theorem C10_empty_list_contacts_nothing w :
  fst (get_feed_list w initial) = Ret [] ->
  fst (run w) = Ret tt
  /\ exit_status (fst (run w)) = 0
  /\ only [COpen; CLog] KRet (snd (run w)).
Proof.
  intros H.
  destruct (get_feed_list_only w initial) as [d [E O]].
  assert (R : run w = (Ret tt, d ++ [Log INFO "No feed URLs found. Exiting."])).
  { unfold run, main. unfold bind at 1.
    destruct (get_feed_list w initial) as [r s0]. simpl in H, E. subst r.
    unfold logging, emit. simpl. rewrite E. reflexivity. }
  rewrite R. simpl. repeat split.
  apply only_seq; [exact O | only_single].
Qed.

Lemma C10_witness :
  fst (run Cases.empty_feeds_file) = Ret tt
  /\ exit_status (fst (run Cases.empty_feeds_file)) = 0
  /\ only [COpen; CLog] KRet (snd (run Cases.empty_feeds_file)).
Proof.
  apply (C10_empty_list_contacts_nothing Cases.empty_feeds_file).
  reflexivity.
Defined.


Lemma get_feed_list_present w lines s :
  feeds_txt w = Lines lines ->
  fst (get_feed_list w s) =
    Ret (map PyStr.strip
           (filter (fun url => PyStr.truthy (PyStr.strip url)) lines)).
Proof.
  intros H. unfold get_feed_list, bind, call, logging, emit, ret. simpl.
  rewrite H. simpl. destruct (map _ _); reflexivity.
Qed.

(** *** One request per listed feed *)

Lemma fetched_app d1 d2 : fetched (d1 ++ d2) = fetched d1 ++ fetched d2.
Proof. unfold fetched. apply flat_map_app. Qed.

Lemma fetched_only (L : list call_class) (k : kind) d :
  ~ In CGet L -> only L k d -> fetched d = [].
Proof.
  intros HL. unfold only. induction 1 as [|e d He _ IH]; [reflexivity|].
  simpl. rewrite IH. destruct e; simpl in *; try reflexivity.
  contradiction.
Qed.

Ltac no_fetch O :=
  eapply fetched_only; [| exact O]; simpl; intuition discriminate.




(** ** A failed summary *)

Lemma clean_only (L : list call_class) (k : kind) d :
  ~ In CGenerate L -> only L k d -> no_failed_generate d.
Proof.
  intros HL H. unfold only, no_failed_generate in *.
  eapply Forall_impl; [|exact H]. intros e He.
  destruct e; simpl in *; try reflexivity. contradiction.
Qed.

Lemma stops_nil : stops_at_failed_generate KRet [].
Proof. left. constructor. Qed.

Lemma stops_seq d1 k d2 :
  stops_at_failed_generate KRet d1 -> stops_at_failed_generate k d2 ->
  stops_at_failed_generate k (d1 ++ d2).
Proof.
  intros [H1 | [H1 _]]; [|discriminate].
  intros [H2 | [Hk [d0 [host [model [prompt [e [E H2]]]]]]]].
  - left. apply Forall_app. split; assumption.
  - right. split; [exact Hk|]. exists (d1 ++ d0), host, model, prompt, e.
    split; [rewrite E, app_assoc; reflexivity|].
    apply Forall_app. split; assumption.
Qed.

Lemma stops_of_only (L : list call_class) {A} (m : M A) :
  ~ In CGenerate L -> satisfies (only L) m ->
  satisfies stops_at_failed_generate m.
Proof.
  intros HL. apply satisfies_weaken. intros k d H. left.
  exact (clean_only L k d HL H).
Qed.

Lemma ai_summary_stops w client text :
  satisfies stops_at_failed_generate (ai_summary w client text).
Proof.
  intros s. unfold ai_summary, bind, call, logging, emit, exit, ret. simpl.
  destruct (client_generate w (trace s) client "custom_model" text) as [e|r];
    simpl.
  - eexists [_; _]. rewrite <- app_assoc. split; [reflexivity|].
    right. split; [reflexivity|].
    exists [], client, "custom_model", text, e. split; [reflexivity | constructor].
  - eexists [_]. split; [reflexivity|]. left. repeat constructor.
Qed.

Ltac stops_known :=
  first
    [ apply ai_summary_stops
    | eapply stops_of_only; [| solve [auto with alphabet]];
      simpl; intuition discriminate ].

Ltac stops :=
  sat_walk ltac:(apply stops_nil) ltac:(apply stops_seq)
    ltac:(left; constructor) ltac:(left; repeat constructor)
    ltac:(stops_known).

Lemma article_step_stops w client a :
  satisfies stops_at_failed_generate (article_step w client a).
Proof. unfold article_step. stops. Qed.

Lemma feed_step_stops w client url :
  satisfies stops_at_failed_generate (feed_step w client url).
Proof.
  unfold feed_step.
  sat_walk ltac:(apply stops_nil) ltac:(apply stops_seq)
    ltac:(left; constructor) ltac:(left; repeat constructor)
    ltac:(first [ apply article_step_stops | stops_known ]).
Qed.

(** From its first entry to its last, a run has no failed summarize call,
    or it is an exit with status 1 whose trace ends with the failed call and
    the record of the failure. *)
Lemma run_stops w :
  stops_at_failed_generate (kind_of (fst (run w))) (snd (run w)).
Proof.
  assert (R : run w = (fst (main w initial), trace (snd (main w initial)))).
  { unfold run. destruct (main w initial). reflexivity. }
  rewrite R. simpl fst. simpl snd.
  destruct (main_cases w initial) as [d [O [[X E] | [[X [E _]] | H]]]].
  - rewrite E. left. simpl.
    apply (clean_only startup_classes KRet); [simpl; intuition discriminate | exact O].
  - rewrite E. left. simpl.
    apply (clean_only startup_classes KRet); [simpl; intuition discriminate | exact O].
  - destruct H as [client [urls [s1 [_ [E1 M]]]]]. rewrite M.
    assert (L : satisfies stops_at_failed_generate
                  (for_each (feed_step w client) urls)).
    { apply sat_for_each;
        [apply stops_nil | apply stops_seq | intros; apply feed_step_stops]. }
    destruct (L s1) as [d2 [E2 G2]]. rewrite E2, E1. simpl.
    apply stops_seq; [|exact G2]. left.
    apply (clean_only startup_classes KRet); [simpl; intuition discriminate | exact O].
Qed.

Lemma failed_generate_position d0 x tail : forall pre e post,
  no_failed_generate d0 -> generate_failed x = true ->
  no_failed_generate tail -> generate_failed e = true ->
  d0 ++ x :: tail = pre ++ e :: post ->
  pre = d0 /\ e = x /\ post = tail.
Proof.
  induction d0 as [|a d0 IH]; intros pre e post H0 Hx Ht He E.
  - destruct pre as [|p pre]; simpl in E.
    + injection E as -> ->. repeat split.
    + injection E as -> ->.
      apply Forall_app in Ht as [_ Ht]. inversion Ht as [|? ? Hc _]; subst.
      congruence.
  - inversion H0 as [|? ? Ha H0']; subst.
    destruct pre as [|p pre]; simpl in E.
    + injection E as -> _. congruence.
    + injection E as -> E.
      destruct (IH pre e post H0' Hx Ht He E) as [-> [-> ->]].
      repeat split.
Qed.

(** C2: in every run, a summarize call that raises is the last call of the
    run: the only entry after it is the ERROR record of the failure, and the
    process exits with status 1.  No further article, of this feed or of a
    later one, is summarized or posted, and no later feed is fetched. *)
Theorem C2_failed_summary_ends_the_run w pre e post :
  snd (run w) = pre ++ e :: post ->
  generate_failed e = true ->
  fst (run w) = Exit 1
  /\ exit_status (fst (run w)) = 1
  /\ exists host model prompt msg,
       e = ClientGenerate host model prompt (inl msg)
       /\ post = [Log ERROR ("AI processing failed: " ++ msg)].
Proof.
  intros E He.
  destruct (run_stops w) as [C | [K [d0 [host [model [prompt [msg [D C]]]]]]]].
  - exfalso. rewrite E in C. apply Forall_app in C as [_ C].
    inversion C as [|? ? Hc _]; subst. congruence.
  - rewrite E in D. symmetry in D.
    destruct (failed_generate_position d0
                (ClientGenerate host model prompt (inl msg))
                [Log ERROR ("AI processing failed: " ++ msg)]
                pre e post C eq_refl
                ltac:(repeat constructor) He D) as [_ [-> ->]].
    destruct (fst (run w)) as [[]|c|x]; simpl in K; try discriminate.
    injection K as ->. repeat split.
    exists host, model, prompt, msg. split; reflexivity.
Qed.

Lemma C2_witness :
  fst (run Cases.model_down) = Exit 1
  /\ exit_status (fst (run Cases.model_down)) = 1
  /\ exists host model prompt msg,
       ClientGenerate "http://localhost:11434" "custom_model" "First body"
         (inl "connection refused")
       = ClientGenerate host model prompt (inl msg)
       /\ [Log ERROR "AI processing failed: connection refused"]
          = [Log ERROR ("AI processing failed: " ++ msg)].
Proof.
  apply (C2_failed_summary_ends_the_run Cases.model_down
           (firstn 17 (snd (run Cases.model_down)))
           (ClientGenerate "http://localhost:11434" "custom_model" "First body"
              (inl "connection refused"))
           [Log ERROR "AI processing failed: connection refused"]);
    reflexivity.
Defined.

(** ** The Slack token *)

(** C3 as stated does not hold.  Without the token, a run whose feeds have
    nothing of the day ends normally, the absence never being detected; a
    run with an article of the day fetches the feed and summarizes the
    article before it finds the token missing; and with the token set, a run
    that posts two articles reads the token twice. *)
Lemma C3_token_is_read_by_each_notification :
  (token_missing Cases.no_token_quiet
   /\ fst (run Cases.no_token_quiet) = Ret tt
   /\ token_reads (snd (run Cases.no_token_quiet)) = [])
  /\ (token_missing Cases.no_token
      /\ fst (run Cases.no_token) = Exit 1
      /\ fetched (snd (run Cases.no_token)) = [Sample.url1]
      /\ gateway_calls (snd (run Cases.no_token)) =
           [ClientGenerate "http://localhost:11434" "custom_model"
              "First body" (inr "Summary of First body")])
  /\ token_reads (snd (run Cases.pair_today)) =
       [Getenv "SLACK_API_TOKEN" (Some "xoxb-1");
        Getenv "SLACK_API_TOKEN" (Some "xoxb-1")].
Proof.
  repeat split; try (left; reflexivity); vm_compute; reflexivity.
Qed.

(** C3, amended: the token is read inside every notification call, before
    anything is sent.  A call that finds it unset or empty logs an error and
    ends the run with exit status 1 without posting; a call that finds it
    posts once, logs the result and returns. *)
Theorem C3_token_checked_by_each_call w title message link s :
  (token_missing w ->
   send_slack_message w title message link s =
     (Exit 1,
      mkState
        (trace s ++
         [Getenv "SLACK_API_TOKEN" (environ w "SLACK_API_TOKEN");
          Log ERROR
            "Slack API token is missing. Set SLACK_API_TOKEN in your environment."])
        (files s)))
  /\ (forall token,
        environ w "SLACK_API_TOKEN" = Some token -> token <> EmptyString ->
        exists r lvl msg,
          send_slack_message w title message link s =
            (Ret tt,
             mkState
               (trace s ++
                [Getenv "SLACK_API_TOKEN" (Some token);
                 ChatPostMessage token (slack_payload title message link) r;
                 Log lvl msg])
               (files s))).
Proof.
  split.
  - intros H.
    unfold send_slack_message, os_getenv, bind, call, logging, emit, exit.
    simpl. destruct H as [H|H]; rewrite H; simpl;
      rewrite <- app_assoc; reflexivity.
  - intros token H Hne.
    unfold send_slack_message, os_getenv, bind, call, logging, emit, ret.
    simpl. rewrite H. destruct token as [|c token]; [congruence|]. simpl.
    match goal with
    | |- context [ChatPostMessage _ _ ?r] => exists r; destruct r as [e|resp]
    end.
    + eexists _, _. simpl. rewrite <- !app_assoc. reflexivity.
    + destruct (ok resp); eexists _, _; simpl; rewrite <- !app_assoc;
        reflexivity.
Qed.

Lemma C3_witness :
  send_slack_message Cases.no_token "Alpha" "Summary" "http://a.example/1"
    initial
  = (Exit 1,
     mkState
       [Getenv "SLACK_API_TOKEN" None;
        Log ERROR
          "Slack API token is missing. Set SLACK_API_TOKEN in your environment."]
       (files initial))
  /\ exists r lvl msg,
       send_slack_message Sample.two_feeds "Alpha" "Summary"
         "http://a.example/1" initial
       = (Ret tt,
          mkState
            (trace initial ++
             [Getenv "SLACK_API_TOKEN" (Some "xoxb-1");
              ChatPostMessage "xoxb-1"
                (slack_payload "Alpha" "Summary" "http://a.example/1") r;
              Log lvl msg])
            (files initial)).
Proof.
  split.
  - apply (proj1 (C3_token_checked_by_each_call Cases.no_token "Alpha"
                    "Summary" "http://a.example/1" initial)).
    left. reflexivity.
  - apply (proj2 (C3_token_checked_by_each_call Sample.two_feeds "Alpha"
                    "Summary" "http://a.example/1" initial) "xoxb-1").
    + reflexivity.
    + discriminate.
Defined.

(** ** The day of an item *)

(** C1 fails on the code, which compares the UTC day of the publication
    date with the local day of the machine.  On a machine nine hours east of
    UTC, at 20:00 UTC, an item published at 19:00 UTC of the same UTC day,
    with its three fields filled, yields no article, and the run summarizes
    and posts nothing; at the same instant on a machine in UTC the same
    document yields the article. *)
Theorem C1_local_day_decides_inclusion :
  dated Cases.tokyo Cases.gamma (utc_today Cases.tokyo [])
  /\ populated Cases.gamma ("Gamma", "http://a.example/2", "Evening body")
  /\ local_today Cases.tokyo [] = utc_today Cases.tokyo [] + 1
  /\ fst (get_feed_content Cases.tokyo "raw_feed.xml"
            (Cases.stored Cases.doc_evening)) = Ret []
  /\ gateway_calls (snd (run Cases.tokyo)) = []
  /\ fst (get_feed_content Cases.utc_evening "raw_feed.xml"
            (Cases.stored Cases.doc_evening))
     = Ret [("Gamma", "http://a.example/2", "Evening body")].
Proof.
  split; [|split; [|repeat split]].
  - eexists. split; reflexivity.
  - repeat split; try discriminate. eexists _, _. repeat split.
Qed.

(** ** The fields of an item *)

(** C4 fails on the code: an item of the day whose [content:encoded]
    element is present but empty makes the extraction raise an
    [AttributeError], which nothing catches, so that the run stops there with
    the second feed never requested.  An empty [title] element, read with
    [findtext], raises nothing: the item is skipped. *)
Theorem C4_empty_content_element_raises :
  fst (get_feed_content Cases.hollow "raw_feed.xml"
         (Cases.stored Cases.doc_hollow))
  = Raise (AttributeError "'NoneType' object has no attribute 'strip'")
  /\ fst (run Cases.hollow)
     = Raise (AttributeError "'NoneType' object has no attribute 'strip'")
  /\ exit_status (fst (run Cases.hollow)) = 1
  /\ fetched (snd (run Cases.hollow)) = [Sample.url1]
  /\ fst (get_feed_content Cases.untitled "raw_feed.xml"
            (Cases.stored "<untitled/>")) = Ret [].
Proof.
  repeat split.
Qed.

(** ** Summarize, then notify *)

Lemma gateway_calls_app d1 d2 :
  gateway_calls (d1 ++ d2) = gateway_calls d1 ++ gateway_calls d2.
Proof. unfold gateway_calls. apply filter_app. Qed.

Lemma gateway_calls_only (L : list call_class) (k : kind) d :
  ~ In CGenerate L -> ~ In CPost L -> only L k d -> gateway_calls d = [].
Proof.
  intros HG HP. unfold only. induction 1 as [|e d He _ IH]; [reflexivity|].
  unfold gateway_calls in *. simpl. rewrite IH.
  destruct e; simpl in *; try reflexivity; contradiction.
Qed.

Lemma for_each_cons {A} (body : A -> M unit) (x : A) (l : list A) s :
  for_each body (x :: l) s =
    match body x s with
    | (Ret _, s') => for_each body l s'
    | (Exit c, s') => (Exit c, s')
    | (Raise e, s') => (Raise e, s')
    end.
Proof. reflexivity. Qed.

(** One turn of the loop over the articles: a summarize call and then a
    notify call carrying its answer, unless the turn ends the run. *)
Lemma article_step_paired w client title link body s :
  exists d,
    trace (snd (article_step w client (title, link, body) s)) = trace s ++ d
    /\ ((kind_of (fst (article_step w client (title, link, body) s)) = KRet
         /\ exists summary token r,
              gateway_calls d =
                [ClientGenerate client "custom_model" body (inr summary);
                 ChatPostMessage token (slack_payload title summary link) r])
        \/ (kind_of (fst (article_step w client (title, link, body) s))
              = KExit 1
            /\ exists r,
                 gateway_calls d =
                   [ClientGenerate client "custom_model" body r])).
Proof.
  unfold article_step, ai_summary, send_slack_message, os_getenv, bind, call,
    logging, emit, exit, ret.
  simpl.
  destruct (client_generate w (trace s) client "custom_model" body)
    as [e|summary]; simpl.
  - eexists [_; _]. rewrite <- app_assoc. split; [reflexivity|].
    right. split; [reflexivity|]. eexists. reflexivity.
  - destruct (environ w "SLACK_API_TOKEN") as [[|c token]|]; simpl.
    + eexists [_; _; _]. rewrite <- !app_assoc. split; [reflexivity|].
      right. split; [reflexivity|]. eexists. reflexivity.
    + match goal with
      | |- context [chat_postMessage w ?h ?tok ?m] =>
          destruct (chat_postMessage w h tok m) as [e|[[] err]]
      end; simpl;
        eexists [_; _; _; _]; rewrite <- !app_assoc;
        (split; [reflexivity|]);
        left; (split; [reflexivity|]); eexists _, _, _; reflexivity.
    + eexists [_; _; _]. rewrite <- !app_assoc. split; [reflexivity|].
      right. split; [reflexivity|]. eexists. reflexivity.
Qed.

(** The loop over the articles of a feed. *)
Lemma article_loop_paired w client articles : forall s,
  exists d,
    trace (snd (for_each (article_step w client) articles s)) = trace s ++ d
    /\ paired_upto client articles (gateway_calls d)
         (kind_of (fst (for_each (article_step w client) articles s))).
Proof.
  induction articles as [|[[title link] body] articles IH]; intros s.
  - exists []. simpl. rewrite app_nil_r. split; [reflexivity | constructor].
  - rewrite for_each_cons.
    destruct (article_step_paired w client title link body s)
      as [d1 [E1 H1]].
    destruct (article_step w client (title, link, body) s) as [[[]|c|e] s1];
      simpl in E1, H1; cbv beta iota.
    + destruct H1 as [[_ [summary [token [r G1]]]] | [K _]]; [|discriminate].
      destruct (IH s1) as [d2 [E2 P2]]. exists (d1 ++ d2).
      rewrite E2, E1, app_assoc, gateway_calls_app, G1.
      split; [reflexivity|]. simpl. apply paired_step. exact P2.
    + destruct H1 as [[K _] | [K [r G1]]]; [discriminate|].
      injection K as ->. exists d1. split; [exact E1|].
      simpl. rewrite G1. destruct r as [e|summary].
      * apply paired_generate_failed.
      * apply paired_token_missing.
    + destruct H1 as [[K _] | [K _]]; discriminate.
Qed.

(** *** Items kept and items skipped *)

Lemma item_step_kept w file today item a acc s :
  dated w item today -> populated item a ->
  item_step w file today item acc s = (Ret (acc ++ [a]), s).
Proof.
  intros [p [Hp Hd]] Hpop.
  destruct a as [[title link] body].
  destruct Hpop as [Ht [Hl [[el [raw [Hel [Htext Hstrip]]]] [Nt [Nl Nb]]]]].
  unfold item_step. rewrite Hp, Hd. cbv zeta.
  rewrite Z.eqb_refl. cbn [negb].
  rewrite Hel, Htext, Ht, Hl, Hstrip. unfold bind, ret.
  rewrite !PyStrFacts.truthy_nonempty by assumption. reflexivity.
Qed.

Lemma item_step_other_day w file today item d acc s :
  dated w item d -> d <> today ->
  item_step w file today item acc s = (Ret acc, s).
Proof.
  intros [p [Hp Hd]] Hne.
  unfold item_step. rewrite Hp, Hd.
  destruct (Z.eqb_spec d today) as [E|_]; [contradiction|].
  reflexivity.
Qed.

(** A document with one item of the day, all fields filled, and one item
    of the day before yields the one article. *)
Lemma get_feed_content_one_of_two w file bytes root i1 i2 a today s :
  files s file = Some bytes ->
  etree_parse w bytes = inr root ->
  ElementPath.findall_descendants "item" root = [i1; i2] ->
  local_today w (trace s) = today ->
  dated w i1 today -> populated i1 a -> dated w i2 (today - 1) ->
  get_feed_content w file s =
    (Ret [a], mkState (trace s ++ [Now (time_now w (trace s))]) (files s)).
Proof.
  intros Hf Hp Hitems Htoday D1 P1 D2.
  unfold get_feed_content, datetime_now, read_file. unfold bind at 1 2 3.
  unfold call, ret. cbn [trace files]. rewrite Hf, Hp.
  unfold bind at 1. rewrite Hitems.
  replace (date _) with today
    by (unfold date, local_today in *; simpl; symmetry; exact Htoday).
  simpl for_fold. unfold bind at 1.
  rewrite (item_step_kept w file today i1 a [] _ D1 P1).
  unfold bind at 1.
  rewrite (item_step_other_day w file today i2 (today - 1) _ _ D2)
    by lia.
  reflexivity.
Qed.

(** *** The turns of the loop over the feeds in the scenario *)

Lemma feed_step_failed_fetch w client url s :
  fetch_fails
    (requests_get w (trace s ++ [Log INFO ("Processing feed: " ++ url)])
       url 20) ->
  exists d,
    feed_step w client url s = (Ret tt, mkState (trace s ++ d) (files s))
    /\ fetched d = [url] /\ gateway_calls d = [].
Proof.
  intros H. unfold feed_step. unfold bind at 1.
  unfold logging at 1, emit at 1. unfold bind at 1.
  rewrite save_feed_raw_failed by exact H.
  eexists [_; _; _]. cbn [trace files ret]. rewrite <- app_assoc.
  repeat split.
Qed.

Lemma feed_step_one_article w client url resp root i1 i2 title link body
    today summary token s :
  (forall h, requests_get w h url 20 = Responds resp) ->
  raise_for_status resp = None ->
  (forall h, write_fails w h "raw_feed.xml" = None) ->
  etree_parse w (content resp) = inr root ->
  ElementPath.findall_descendants "item" root = [i1; i2] ->
  (forall h, local_today w h = today) ->
  dated w i1 today -> populated i1 (title, link, body) ->
  dated w i2 (today - 1) ->
  (forall h, client_generate w h client "custom_model" body = inr summary) ->
  environ w "SLACK_API_TOKEN" = Some token -> token <> EmptyString ->
  exists d r s',
    feed_step w client url s = (Ret tt, s')
    /\ trace s' = trace s ++ d
    /\ fetched d = [url]
    /\ gateway_calls d =
         [ClientGenerate client "custom_model" body (inr summary);
          ChatPostMessage token (slack_payload title summary link) r].
Proof.
  intros Hget Hst Hwrite Hparse Hitems Htoday D1 P1 D2 Hgen Htok Hne.
  unfold feed_step. unfold bind at 1.
  unfold logging at 1, emit at 1. unfold bind at 1.
  rewrite (save_feed_raw_ok w url _ resp (Hget _) Hst (Hwrite _)).
  unfold bind at 1.
  erewrite (get_feed_content_one_of_two w "raw_feed.xml" (content resp) root
              i1 i2 (title, link, body) today);
    [ | reflexivity | exact Hparse | exact Hitems | apply Htoday
      | exact D1 | exact P1 | exact D2 ].
  rewrite for_each_cons.
  unfold article_step, ai_summary, send_slack_message, os_getenv.
  unfold bind, call, logging, emit, ret. cbn [trace files fst snd].
  rewrite Hgen. cbv beta iota. rewrite Htok.
  destruct token as [|c token]; [congruence|]. cbv beta iota.
  cbn [trace files fst snd].
  match goal with
  | |- context [chat_postMessage w ?h ?tok ?m] =>
      exists ([Log INFO ("Processing feed: " ++ url);
               RequestsGet url 20 (Responds resp)]
              ++ [Now (time_now w
                         ((trace s ++ [Log INFO ("Processing feed: " ++ url)])
                          ++ [RequestsGet url 20 (Responds resp)]))]
              ++ [ClientGenerate client "custom_model" body (inr summary);
                  Getenv "SLACK_API_TOKEN" (Some (String c token));
                  ChatPostMessage tok m (chat_postMessage w h tok m)]
              ++ [match chat_postMessage w h tok m with
                  | inl e => Log ERROR ("Failed to send Slack message: " ++ e)
                  | inr resp =>
                      if ok resp
                      then Log INFO ("Sent Slack message: " ++ title)
                      else Log ERROR ("Slack API error: " ++ error resp)
                  end]),
             (chat_postMessage w h tok m);
      destruct (chat_postMessage w h tok m) as [e|[[] err]]
  end; cbn [ok error for_each ret]; eexists;
    (split; [reflexivity|]); cbn [trace];
    (split; [rewrite <- !app_assoc; reflexivity|]);
    split; reflexivity.
Qed.

(** *** One feed, from its articles to its calls *)

(** Once the feed is fetched and its articles extracted, the turn of the
    feed is the loop over these articles. *)
Lemma feed_step_on_articles w client url s f s1 articles s2 :
  save_feed_raw w url
    (mkState (trace s ++ [Log INFO ("Processing feed: " ++ url)]) (files s))
  = (Ret (Some f), s1) ->
  get_feed_content w f s1 = (Ret articles, s2) ->
  feed_step w client url s =
    match articles with
    | [] => logging INFO ("No new articles today from " ++ url) s2
    | _ => for_each (article_step w client) articles s2
    end.
Proof.
  intros Hs Hg. unfold feed_step. unfold bind at 1.
  unfold logging at 1, emit at 1. unfold bind at 1. rewrite Hs.
  unfold bind at 1. rewrite Hg. destruct articles; reflexivity.
Qed.

Lemma feed_step_paired w client url s f s1 articles s2 :
  save_feed_raw w url
    (mkState (trace s ++ [Log INFO ("Processing feed: " ++ url)]) (files s))
  = (Ret (Some f), s1) ->
  get_feed_content w f s1 = (Ret articles, s2) ->
  exists d,
    trace (snd (feed_step w client url s)) = trace s ++ d
    /\ paired_upto client articles (gateway_calls d)
         (kind_of (fst (feed_step w client url s))).
Proof.
  intros Hs Hg.
  rewrite (feed_step_on_articles w client url s f s1 articles s2 Hs Hg).
  destruct (save_feed_raw_only w url
              (mkState (trace s ++ [Log INFO ("Processing feed: " ++ url)])
                 (files s))) as [d1 [E1 O1]].
  rewrite Hs in E1. cbn [snd trace] in E1.
  destruct (get_feed_content_only w f s1) as [d2 [E2 O2]].
  rewrite Hg in E2. cbn [snd] in E2.
  assert (G1 : gateway_calls d1 = []).
  { eapply gateway_calls_only; [| | exact O1]; simpl; intuition discriminate. }
  assert (G2 : gateway_calls d2 = []).
  { eapply gateway_calls_only; [| | exact O2]; simpl; intuition discriminate. }
  destruct articles as [|a articles].
  - exists ([Log INFO ("Processing feed: " ++ url)] ++ d1 ++ d2
            ++ [Log INFO ("No new articles today from " ++ url)]).
    unfold logging, emit. cbn [fst snd trace kind_of]. split.
    + rewrite E2, E1. rewrite <- !app_assoc. reflexivity.
    + rewrite !gateway_calls_app, G1, G2. constructor.
  - destruct (article_loop_paired w client (a :: articles) s2) as [d3 [E3 P3]].
    exists ([Log INFO ("Processing feed: " ++ url)] ++ d1 ++ d2 ++ d3). split.
    + rewrite E3, E2, E1. rewrite <- !app_assoc. reflexivity.
    + rewrite !gateway_calls_app, G1, G2. exact P3.
Qed.

(** C7 fails on the code in its scenario.  In every run, the turn of a feed
    takes the articles that [get_feed_content] returned, in the order of
    that list, and issues for each one summarize call and then one notify
    call that carries the answer of that summarize call, before it turns to
    the next article; it stops early only by ending the run (a summarize
    call that raised, or a missing token).  In the scenario of two feeds,
    the first serving an item dated on the current UTC day with all its
    fields and an item of the day before, the second failing to be fetched,
    the run issues exactly one summarize call followed by one notify call
    when the local day of the machine is the UTC day.  On a machine nine
    hours east of UTC, at 20:00 UTC, the local day is the next one: the
    item of the current UTC day is not taken and the run, which returns
    normally after requesting both feeds, issues no call at all. *)
Theorem C7_pairs_per_article_scenario_by_local_day :
  (forall w client url s f s1 articles s2,
     save_feed_raw w url
       (mkState (trace s ++ [Log INFO ("Processing feed: " ++ url)]) (files s))
     = (Ret (Some f), s1) ->
     get_feed_content w f s1 = (Ret articles, s2) ->
     exists d,
       trace (snd (feed_step w client url s)) = trace s ++ d
       /\ paired_upto client articles (gateway_calls d)
            (kind_of (fst (feed_step w client url s))))
  /\ (forall w lines u1 u2 resp root i1 i2 title link body e today summary
             token,
        feeds_txt w = Lines lines ->
        fst (get_feed_list w initial) = Ret [u1; u2] ->
        clients_are_built w ->
        model_server_up w ->
        (forall h, requests_get w h u1 20 = Responds resp) ->
        raise_for_status resp = None ->
        (forall h, write_fails w h "raw_feed.xml" = None) ->
        etree_parse w (content resp) = inr root ->
        ElementPath.findall_descendants "item" root = [i1; i2] ->
        (forall h, utc_today w h = today) ->
        (forall h, local_today w h = utc_today w h) ->
        dated w i1 today -> populated i1 (title, link, body) ->
        dated w i2 (today - 1) ->
        (forall h, requests_get w h u2 20 = Fails e) ->
        (forall h client,
           client_generate w h client "custom_model" body = inr summary) ->
        environ w "SLACK_API_TOKEN" = Some token -> token <> EmptyString ->
        fst (run w) = Ret tt
        /\ fetched (snd (run w)) = [u1; u2]
        /\ exists client r,
             gateway_calls (snd (run w)) =
               [ClientGenerate client "custom_model" body (inr summary);
                ChatPostMessage token (slack_payload title summary link) r])
  /\ (feeds_txt (Cases.scenario 32400) = Lines [Sample.url1; Sample.url2]
      /\ fst (save_feed_raw (Cases.scenario 32400) Sample.url1 initial)
         = Ret (Some "raw_feed.xml")
      /\ etree_parse (Cases.scenario 32400) Cases.doc_scenario
         = inr (Sample.rss [Cases.gamma; Cases.beta])
      /\ dated (Cases.scenario 32400) Cases.gamma
           (utc_today (Cases.scenario 32400) [])
      /\ populated Cases.gamma ("Gamma", "http://a.example/2", "Evening body")
      /\ dated (Cases.scenario 32400) Cases.beta
           (utc_today (Cases.scenario 32400) [] - 1)
      /\ fst (save_feed_raw (Cases.scenario 32400) Sample.url2 initial)
         = Ret None
      /\ local_today (Cases.scenario 32400) []
         = utc_today (Cases.scenario 32400) [] + 1
      /\ fst (run (Cases.scenario 32400)) = Ret tt
      /\ fetched (snd (run (Cases.scenario 32400)))
         = [Sample.url1; Sample.url2]
      /\ gateway_calls (snd (run (Cases.scenario 32400))) = [])
  /\ gateway_calls (snd (run (Cases.scenario 0))) =
       [ClientGenerate "http://localhost:11434" "custom_model" "Evening body"
          (inr "Summary of Evening body");
        ChatPostMessage "xoxb-1"
          (slack_payload "Gamma" "Summary of Evening body"
             "http://a.example/2")
          (inr (mkSlackResponse true EmptyString))].
Proof.
  split; [intros; eapply feed_step_paired; eassumption|].
  split.
  2:{ split; [|reflexivity].
      split; [reflexivity|]. split; [reflexivity|]. split; [reflexivity|].
      split; [eexists; split; reflexivity|].
      split; [repeat split; try discriminate; eexists _, _; repeat split|].
      split; [eexists; split; reflexivity|].
      repeat split. }
  intros w lines u1 u2 resp root i1 i2 title link body e today summary token
    Hf Hlist Hnew Hup Hget1 Hst Hwrite Hparse Hitems Hutc Hlocal D1 P1 D2
    Hget2 Hgen Htok Hne.
  assert (Htoday : forall h, local_today w h = today)
    by (intros h; rewrite Hlocal; apply Hutc).
  assert (R : run w = (fst (main w initial), trace (snd (main w initial)))).
  { unfold run. destruct (main w initial). reflexivity. }
  rewrite R. cbn [fst snd].
  destruct (main_cases_up w lines initial Hf Hnew Hup)
    as [d [O [[_ [_ G0]] | [client [urls [s1 [G1 [E1 M]]]]]]]].
  - rewrite Hlist in G0. discriminate.
  - rewrite Hlist in G1. injection G1 as <-. rewrite M.
    assert (Fd : fetched d = []) by no_fetch O.
    assert (Gd : gateway_calls d = []).
    { eapply gateway_calls_only; [| | exact O]; simpl; intuition discriminate. }
    rewrite for_each_cons.
    destruct (feed_step_one_article w client u1 resp root i1 i2 title link
                body today summary token s1 Hget1 Hst Hwrite Hparse Hitems
                Htoday D1 P1 D2 (fun h => Hgen h client) Htok Hne)
      as [d1 [r [s2 [S1 [T1 [F1 C1]]]]]].
    rewrite S1. rewrite for_each_cons.
    destruct (feed_step_failed_fetch w client u2 s2) as [d2 [S2 [F2 C2]]].
    { rewrite Hget2. exact I. }
    rewrite S2. cbn [for_each ret fst snd trace].
    rewrite T1, E1. cbn [trace initial app].
    rewrite !fetched_app, !gateway_calls_app, Fd, Gd, F1, F2, C1, C2.
    split; [reflexivity|]. split; [reflexivity|].
    exists client, r. reflexivity.
Qed.

Lemma C7_witness :
  (exists d,
     trace (snd (feed_step Cases.pair_today "http://localhost:11434"
                   Sample.url1 initial)) = trace initial ++ d
     /\ paired_upto "http://localhost:11434"
          [("Alpha", "http://a.example/1", "First body");
           ("Gamma", "http://a.example/2", "Evening body")]
          (gateway_calls d)
          (kind_of (fst (feed_step Cases.pair_today "http://localhost:11434"
                           Sample.url1 initial))))
  /\ (fst (run Sample.two_feeds) = Ret tt
      /\ fetched (snd (run Sample.two_feeds)) = [Sample.url1; Sample.url2]
      /\ exists client r,
           gateway_calls (snd (run Sample.two_feeds)) =
             [ClientGenerate client "custom_model" "First body"
                (inr "Summary of First body");
              ChatPostMessage "xoxb-1"
                (slack_payload "Alpha" "Summary of First body"
                   "http://a.example/1") r]).
Proof.
  split.
  - apply (proj1 C7_pairs_per_article_scenario_by_local_day
             Cases.pair_today "http://localhost:11434" Sample.url1 initial
             "raw_feed.xml"
             (snd (save_feed_raw Cases.pair_today Sample.url1
                     (mkState
                        (trace initial
                           ++ [Log INFO ("Processing feed: " ++ Sample.url1)])
                        (files initial))))
             [("Alpha", "http://a.example/1", "First body");
              ("Gamma", "http://a.example/2", "Evening body")]
             (snd (get_feed_content Cases.pair_today "raw_feed.xml"
                     (snd (save_feed_raw Cases.pair_today Sample.url1
                             (mkState
                                (trace initial
                                   ++ [Log INFO
                                         ("Processing feed: " ++ Sample.url1)])
                                (files initial)))))));
      reflexivity.
  - apply (proj1 (proj2 C7_pairs_per_article_scenario_by_local_day)
             Sample.two_feeds
             [(Sample.url1 ++ PyStr.nl)%string; (Sample.url2 ++ PyStr.nl)%string]
             Sample.url1 Sample.url2 (mkResponse 200 Sample.doc1) Sample.tree1
             (Sample.item "Alpha" "http://a.example/1"
                "Mon, 01 Jan 2024 10:30:00 +0000" (Some "First body"))
             (Sample.item "Beta" "http://a.example/0"
                "Sun, 31 Dec 2023 10:30:00 +0000" (Some "Old body"))
             "Alpha" "http://a.example/1" "First body"
             (Timeout "Read timed out. (read timeout=20)")
             Sample.day "Summary of First body" "xoxb-1").
    + reflexivity.
    + reflexivity.
    + intros host. reflexivity.
    + repeat split.
    + reflexivity.
    + reflexivity.
    + reflexivity.
    + reflexivity.
    + reflexivity.
    + reflexivity.
    + reflexivity.
    + eexists. split; reflexivity.
    + repeat split; try discriminate. eexists _, _. repeat split.
    + eexists. split; reflexivity.
    + reflexivity.
    + reflexivity.
    + reflexivity.
    + discriminate.
Defined.

(** * Further properties *)

(** ** What [get_feed_content] keeps *)

Lemma truthy_true_nonempty (s : string) : PyStr.truthy s = true -> s <> EmptyString.
Proof. destruct s; [discriminate | discriminate]. Qed.

Lemma truthy_false_empty (s : string) : PyStr.truthy s = false -> s = EmptyString.
Proof. destruct s; [reflexivity | discriminate]. Qed.

Lemma dated_functional w item d1 d2 :
  dated w item d1 -> dated w item d2 -> d1 = d2.
Proof.
  intros [p1 [H1 E1]] [p2 [H2 E2]]. rewrite H1 in H2. injection H2 as <-.
  rewrite E1 in E2. injection E2 as <-. reflexivity.
Qed.

Lemma populated_functional item a1 a2 :
  populated item a1 -> populated item a2 -> a1 = a2.
Proof.
  destruct a1 as [[t1 l1] b1]. destruct a2 as [[t2 l2] b2].
  intros [T1 [L1 [[el1 [raw1 [F1 [X1 S1]]]] _]]]
         [T2 [L2 [[el2 [raw2 [F2 [X2 S2]]]] _]]].
  rewrite F1 in F2. injection F2 as <-. rewrite X1 in X2. injection X2 as <-.
  congruence.
Qed.

(** One turn of the loop over the items: the list grows by the article of
    the item when the item yields one, and is left as it is otherwise; the
    log grows by the warning of the item, if any; the files are left alone;
    the turn raises only on a [content:encoded] element without text. *)
Lemma item_step_cases w file today item acc s r s' :
  item_step w file today item acc s = (r, s') ->
  trace s' = trace s ++ date_warnings w file [item]
  /\ files s' = files s
  /\ (forall acc', r = Ret acc' ->
        (acc' = acc /\ ~ qualifies w today item)
        \/ exists a, acc' = acc ++ [a] /\ dated w item today /\ populated item a)
  /\ (forall code, r <> Exit code)
  /\ (forall e, r = Raise e ->
        e = AttributeError "'NoneType' object has no attribute 'strip'"
        /\ exists el,
             ElementPath.find
               (ElementPath.resolve namespaces "content" "encoded") item
             = Some el
             /\ text el = None).
Proof.
  unfold item_step, date_warnings. simpl flat_map.
  destruct (ElementPath.find "pubDate" item) as [p|] eqn:Hp.
  2:{ intros E; injection E as <- <-. rewrite app_nil_r.
      repeat split; try discriminate. intros acc' E; injection E as <-.
      left. split; [reflexivity|]. intros [[p [Hp' _]] _]. congruence. }
  destruct (pub_date_of w (text p)) as [e|pub_date] eqn:Hd.
  { unfold bind, logging, emit, ret. simpl. intros E; injection E as <- <-.
    simpl. repeat split; try discriminate.
    intros acc' E; injection E as <-.
    left. split; [reflexivity|]. intros [[p' [Hp' Hd']] _].
    rewrite Hp in Hp'. injection Hp' as <-. congruence. }
  rewrite !app_nil_r.
  destruct (Z.eqb_spec pub_date today) as [Hday|Hday]; cbn [negb].
  2:{ intros E; injection E as <- <-.
      repeat split; try discriminate. intros acc' E; injection E as <-.
      left. split; [reflexivity|]. intros [[p' [Hp' Hd']] _].
      rewrite Hp in Hp'. injection Hp' as <-. congruence. }
  subst pub_date.
  assert (D : dated w item today) by (exists p; auto).
  destruct (ElementPath.find
              (ElementPath.resolve namespaces "content" "encoded") item)
    as [el|] eqn:Hel.
  2:{ unfold bind, ret. rewrite !andb_false_r.
      intros E; injection E as <- <-.
      repeat split; try discriminate. intros acc' E; injection E as <-.
      left. split; [reflexivity|].
      intros [_ [[[t l] b] [_ [_ [[el [raw [F _]]] _]]]]]. congruence. }
  destruct (text el) as [raw|] eqn:Hraw.
  2:{ unfold bind, raise. intros E; injection E as <- <-.
      split; [reflexivity|]. split; [reflexivity|].
      split; [discriminate|]. split; [discriminate|].
      intros e E; injection E as <-.
      split; [reflexivity|]. exists el. auto. }
  unfold bind, ret.
  destruct (PyStr.truthy (PyStr.strip (ElementPath.findtext "title" EmptyString item)))
    eqn:Tt; cbn [andb];
    [ destruct (PyStr.truthy
                  (PyStr.strip (ElementPath.findtext "link" EmptyString item)))
        eqn:Tl; cbn [andb];
      [ destruct (PyStr.truthy (PyStr.strip raw)) eqn:Tb | ] | ];
    intros E; injection E as <- <-;
    repeat split; try discriminate;
    intros acc' E; injection E as <-.
  - right. eexists. split; [reflexivity|]. split; [exact D|].
    repeat split; try (apply truthy_true_nonempty; assumption).
    exists el, raw. auto.
  - left. split; [reflexivity|].
    intros [_ [[[t l] b] [_ [_ [[el' [raw' [F [X S]]]] [_ [_ N]]]]]]].
    rewrite Hel in F. injection F as <-. rewrite Hraw in X. injection X as <-.
    apply truthy_false_empty in Tb. congruence.
  - left. split; [reflexivity|].
    intros [_ [[[t l] b] [_ [L [_ [_ [N _]]]]]]].
    apply truthy_false_empty in Tl. congruence.
  - left. split; [reflexivity|].
    intros [_ [[[t l] b] [T [_ [_ [N _]]]]]].
    apply truthy_false_empty in Tt. congruence.
Qed.

(** The whole loop over the items. *)
Lemma items_loop_cases w file today items : forall acc s r s',
  for_fold (item_step w file today) items acc s = (r, s') ->
  files s' = files s
  /\ (forall code, r <> Exit code)
  /\ (forall e, r = Raise e ->
        e = AttributeError "'NoneType' object has no attribute 'strip'"
        /\ exists item el,
             In item items
             /\ ElementPath.find
                  (ElementPath.resolve namespaces "content" "encoded") item
                = Some el
             /\ text el = None)
  /\ (forall articles, r = Ret articles ->
        trace s' = trace s ++ date_warnings w file items
        /\ exists new,
             articles = acc ++ new /\ extracted w today items new).
Proof.
  induction items as [|item items IH]; intros acc s r s'.
  - simpl. unfold ret. intros E; injection E as <- <-.
    repeat split; try discriminate.
    + rewrite app_nil_r. reflexivity.
    + injection H as <-. exists []. rewrite app_nil_r.
      split; [reflexivity | constructor].
  - simpl for_fold. unfold bind.
    destruct (item_step w file today item acc s) as [r1 s1] eqn:E1.
    destruct (item_step_cases w file today item acc s r1 s1 E1)
      as [T1 [F1 [R1 [X1 A1]]]].
    destruct r1 as [acc1|c|e].
    + intros E. destruct (IH acc1 s1 r s' E) as [F2 [X2 [A2 R2]]].
      split; [congruence|]. split; [exact X2|]. split.
      * intros e He. destruct (A2 e He) as [-> [i [el [Hi H]]]].
        split; [reflexivity|]. exists i, el. split; [right; exact Hi | exact H].
      * intros articles Hr. destruct (R2 articles Hr) as [T2 [new [Hn Hx]]].
        split.
        -- rewrite T2, T1. change (item :: items) with ([item] ++ items).
           unfold date_warnings at 3. rewrite flat_map_app, app_assoc.
           reflexivity.
        -- destruct (R1 acc1 eq_refl) as [[-> Nq] | [a [-> [Da Pa]]]].
           ++ exists new. split; [exact Hn|].
              apply extracted_skip; assumption.
           ++ exists (a :: new). split; [rewrite Hn, <- app_assoc; reflexivity|].
              apply extracted_keep; assumption.
    + exfalso. exact (X1 c eq_refl).
    + intros E; injection E as <- <-.
      split; [exact F1|]. split; [discriminate|]. split; [|discriminate].
      intros e' E'; injection E' as <-.
      destruct (A1 e eq_refl) as [-> [el H]].
      split; [reflexivity|]. exists item, el. split; [left; reflexivity | exact H].
Qed.

Lemma get_feed_content_parsed w file bytes root s :
  files s file = Some bytes ->
  etree_parse w bytes = inr root ->
  get_feed_content w file s =
    match for_fold (item_step w file (local_today w (trace s)))
            (ElementPath.findall_descendants "item" root) []
            (mkState (trace s ++ [Now (time_now w (trace s))]) (files s))
    with
    | (Ret articles, s1) =>
        (Ret articles,
         match articles with
         | [] => mkState
                   (trace s1 ++ [Log INFO ("No new articles found in " ++ file)])
                   (files s1)
         | _ => s1
         end)
    | (Exit c, s1) => (Exit c, s1)
    | (Raise e, s1) => (Raise e, s1)
    end.
Proof.
  intros Hf Hp.
  unfold get_feed_content, datetime_now, read_file. unfold bind at 1 2 3.
  unfold call, ret. cbn [trace files]. rewrite Hf, Hp.
  unfold bind at 1.
  change (date _) with (local_today w (trace s)).
  destruct (for_fold _ _ _ _) as [[articles|c|e] s1]; try reflexivity.
  destruct articles; reflexivity.
Qed.

(** The articles of a list of items, as a set. *)
Lemma extracted_In w today items articles :
  extracted w today items articles ->
  forall a,
    In a articles <->
    exists item, In item items /\ dated w item today /\ populated item a.
Proof.
  induction 1 as [|item items a0 articles D P _ IH|item items articles N _ IH];
    intros a.
  - split; [intros [] | intros [i [[] _]]].
  - simpl. rewrite IH. split.
    + intros [<- | [i [Hi H]]].
      * exists item. auto.
      * exists i. split; [right; exact Hi | exact H].
    + intros [i [[<-|Hi] [Di Pi]]].
      * left. exact (populated_functional item a0 a P Pi).
      * right. exists i. auto.
  - rewrite IH. split.
    + intros [i [Hi H]]. exists i. split; [right; exact Hi | exact H].
    + intros [i [[<-|Hi] [Di Pi]]].
      * exfalso. apply N. split; [exact Di | exists a; exact Pi].
      * exists i. auto.
Qed.

(** X1: from a well-formed document, [get_feed_content] returns the
    articles of the items that carry a date with a UTC day equal to the day
    the local clock shows, and whose title, link and encoded content are
    non-empty once trimmed: one article for each such item, in the order of
    the items in the document, and nothing else.  In particular an article
    is returned exactly when some item yields it. *)
Theorem X1_articles_are_the_items_of_the_local_day
    w file bytes root s articles s' :
  files s file = Some bytes ->
  etree_parse w bytes = inr root ->
  get_feed_content w file s = (Ret articles, s') ->
  extracted w (local_today w (trace s))
    (ElementPath.findall_descendants "item" root) articles
  /\ forall a,
       In a articles <->
       exists item,
         In item (ElementPath.findall_descendants "item" root)
         /\ dated w item (local_today w (trace s))
         /\ populated item a.
Proof.
  intros Hf Hp. rewrite (get_feed_content_parsed w file bytes root s Hf Hp).
  destruct (for_fold _ _ _ _) as [r s1] eqn:E.
  destruct (items_loop_cases _ _ _ _ _ _ _ _ E) as [_ [_ [_ R]]].
  destruct r as [arts|c|e]; try discriminate.
  intros H; injection H as <- _.
  destruct (R arts eq_refl) as [_ [new [-> Hx]]].
  split; [exact Hx | apply extracted_In; exact Hx].
Qed.

Lemma X1_witness :
  extracted Cases.pair_today
    (local_today Cases.pair_today (trace (Cases.stored "<pair/>")))
    (ElementPath.findall_descendants "item" Cases.tree_pair)
    [("Alpha", "http://a.example/1", "First body");
     ("Gamma", "http://a.example/2", "Evening body")]
  /\ forall a,
       In a [("Alpha", "http://a.example/1", "First body");
             ("Gamma", "http://a.example/2", "Evening body")] <->
       exists item,
         In item (ElementPath.findall_descendants "item" Cases.tree_pair)
         /\ dated Cases.pair_today item
              (local_today Cases.pair_today (trace (Cases.stored "<pair/>")))
         /\ populated item a.
Proof.
  apply (X1_articles_are_the_items_of_the_local_day Cases.pair_today
           "raw_feed.xml" "<pair/>" Cases.tree_pair (Cases.stored "<pair/>")
           [("Alpha", "http://a.example/1", "First body");
            ("Gamma", "http://a.example/2", "Evening body")]
           (snd (get_feed_content Cases.pair_today "raw_feed.xml"
                   (Cases.stored "<pair/>"))));
    reflexivity.
Defined.

(** X2: on a well-formed document that it gets through, [get_feed_content]
    reads the clock once, logs one WARNING for each item whose [pubDate]
    gives no UTC day (it does not parse, or its UTC value is out of the
    range of [datetime]) and nothing for the other items, logs one INFO
    record exactly when it returns no article, and leaves the files as they
    were. *)
Theorem X2_records_of_get_feed_content w file bytes root s articles s' :
  files s file = Some bytes ->
  etree_parse w bytes = inr root ->
  get_feed_content w file s = (Ret articles, s') ->
  trace s' =
    trace s ++ [Now (time_now w (trace s))]
    ++ date_warnings w file (ElementPath.findall_descendants "item" root)
    ++ match articles with
       | [] => [Log INFO ("No new articles found in " ++ file)]
       | _ => []
       end
  /\ files s' = files s.
Proof.
  intros Hf Hp. rewrite (get_feed_content_parsed w file bytes root s Hf Hp).
  destruct (for_fold _ _ _ _) as [r s1] eqn:E.
  destruct (items_loop_cases _ _ _ _ _ _ _ _ E) as [F [_ [_ R]]].
  destruct r as [arts|c|e]; try discriminate.
  intros H; injection H as <- <-.
  destruct (R arts eq_refl) as [T _]. cbn [trace files] in T, F.
  destruct arts; cbn [trace files]; rewrite T, <- ?app_assoc;
    split; try exact F; try reflexivity.
  rewrite app_nil_r. reflexivity.
Qed.

Lemma X2_witness :
  trace (snd (get_feed_content Cases.mixed "raw_feed.xml"
                (Cases.stored "<mixed/>")))
  = [Now (Sample.midnight + 12 * 3600);
     Log WARNING
       "Skipping article due to date parsing error in raw_feed.xml: Invalid date value or format";
     Log WARNING
       "Skipping article due to date parsing error in raw_feed.xml: date value out of range"]
  /\ files (snd (get_feed_content Cases.mixed "raw_feed.xml"
                   (Cases.stored "<mixed/>")))
     = files (Cases.stored "<mixed/>").
Proof.
  apply (X2_records_of_get_feed_content Cases.mixed "raw_feed.xml" "<mixed/>"
           Cases.tree_mixed (Cases.stored "<mixed/>")
           [("Alpha", "http://a.example/1", "First body")]
           (snd (get_feed_content Cases.mixed "raw_feed.xml"
                   (Cases.stored "<mixed/>"))));
    reflexivity.
Defined.

(** ** Delivery failures *)

(** X3: once the summary is there and the token is set, whatever Slack
    answers (an exception, a refusal or an acknowledgement), the turn logs
    one record about the delivery and the loop goes on with the next
    article: a failed delivery loses that one notification only. *)
Theorem X3_delivery_failure_is_article_local
    w client title link body later s summary token :
  client_generate w (trace s) client "custom_model" body = inr summary ->
  environ w "SLACK_API_TOKEN" = Some token -> token <> EmptyString ->
  let h := trace s
           ++ [ClientGenerate client "custom_model" body (inr summary);
               Getenv "SLACK_API_TOKEN" (Some token)] in
  let r := chat_postMessage w h token (slack_payload title summary link) in
  for_each (article_step w client) ((title, link, body) :: later) s =
  for_each (article_step w client) later
    (mkState
       (h ++ [ChatPostMessage token (slack_payload title summary link) r;
              delivery_record title r])
       (files s)).
Proof.
  intros Hgen Htok Hne h r. rewrite for_each_cons.
  unfold article_step, ai_summary, send_slack_message, os_getenv.
  unfold bind, call, logging, emit, ret. cbn [trace files fst snd].
  rewrite Hgen. cbv beta iota. rewrite Htok.
  destruct token as [|c token]; [congruence|]. cbv beta iota.
  cbn [trace files fst snd].
  replace ((trace s ++
            [ClientGenerate client "custom_model" body (inr summary)]) ++
           [Getenv "SLACK_API_TOKEN" (Some (String c token))])
    with h by (unfold h; rewrite <- app_assoc; reflexivity).
  fold r. unfold delivery_record.
  destruct r as [e|[[] err]]; cbn [ok error trace files];
    rewrite <- !app_assoc; reflexivity.
Qed.

Lemma X3_witness :
  for_each (article_step (Cases.with_slack (inl "channel_not_found"))
              "http://localhost:11434")
    [("Alpha", "http://a.example/1", "First body");
     ("Gamma", "http://a.example/2", "Evening body")] initial
  = for_each (article_step (Cases.with_slack (inl "channel_not_found"))
                "http://localhost:11434")
      [("Gamma", "http://a.example/2", "Evening body")]
      (mkState
         [ClientGenerate "http://localhost:11434" "custom_model" "First body"
            (inr "Summary of First body");
          Getenv "SLACK_API_TOKEN" (Some "xoxb-1");
          ChatPostMessage "xoxb-1"
            (slack_payload "Alpha" "Summary of First body"
               "http://a.example/1") (inl "channel_not_found");
          Log ERROR "Failed to send Slack message: channel_not_found"]
         (files initial)).
Proof.
  apply (X3_delivery_failure_is_article_local
           (Cases.with_slack (inl "channel_not_found"))
           "http://localhost:11434" "Alpha" "http://a.example/1" "First body"
           [("Gamma", "http://a.example/2", "Evening body")] initial
           "Summary of First body" "xoxb-1").
  - reflexivity.
  - reflexivity.
  - discriminate.
Defined.

(** ** Preparing the model *)

(** X4: [ai_model] pulls the base model, creates [custom_model] from it
    with the system text and shows it, in this order; it returns when the
    three calls succeed, and at the first call that raises it logs the
    failure and exits with status 1 without making the calls that
    follow. *)
Theorem X4_model_steps_stop_at_first_failure w client llm_model system_ops s :
  exists d,
    trace (snd (ai_model w client llm_model system_ops s)) = trace s ++ d
    /\ files (snd (ai_model w client llm_model system_ops s)) = files s
    /\ ((fst (ai_model w client llm_model system_ops s) = Ret tt
         /\ remote_calls d =
              [ClientPull client llm_model None;
               ClientCreate client "custom_model" llm_model system_ops None;
               ClientShow client "custom_model" None])
        \/ (fst (ai_model w client llm_model system_ops s) = Exit 1
            /\ exists e,
                 last d (Now 0)
                 = Log ERROR ("AI model initialization failed: " ++ e)
                 /\ (remote_calls d = [ClientPull client llm_model (Some e)]
                     \/ remote_calls d =
                          [ClientPull client llm_model None;
                           ClientCreate client "custom_model" llm_model
                             system_ops (Some e)]
                     \/ remote_calls d =
                          [ClientPull client llm_model None;
                           ClientCreate client "custom_model" llm_model
                             system_ops None;
                           ClientShow client "custom_model" (Some e)]))).
Proof.
  unfold ai_model, bind, call, logging, emit, exit, ret. cbn [trace files].
  destruct (client_pull w _ client llm_model) as [e1|]; cbn [trace files fst snd].
  - eexists [_; _; _]. rewrite <- !app_assoc. repeat split.
    right. split; [reflexivity|]. exists e1. split; [reflexivity|]. auto.
  - destruct (client_create w _ client "custom_model" llm_model system_ops)
      as [e2|]; cbn [trace files fst snd].
    + eexists [_; _; _; _]. rewrite <- !app_assoc. repeat split.
      right. split; [reflexivity|]. exists e2. split; [reflexivity|]. auto.
    + destruct (client_show w _ client "custom_model") as [e3|];
        cbn [trace files fst snd].
      * eexists [_; _; _; _; _]. rewrite <- !app_assoc. repeat split.
        right. split; [reflexivity|]. exists e3. split; [reflexivity|]. auto.
      * eexists [_; _; _; _; _]. rewrite <- !app_assoc. repeat split.
        left. split; reflexivity.
Qed.

(** ** The start of a run, call by call *)

Lemma get_feed_list_returns w s urls :
  fst (get_feed_list w s) = Ret urls ->
  exists lines,
    feeds_txt w = Lines lines
    /\ get_feed_list w s =
         (Ret urls,
          mkState
            (trace s ++ OpenFeedsTxt (Lines lines)
               :: match urls with
                  | [] => [Log WARNING "feeds.txt is empty."]
                  | _ => []
                  end)
            (files s)).
Proof.
  unfold get_feed_list, bind, call, logging, emit, exit, raise, ret.
  cbn [trace files].
  destruct (feeds_txt w) as [|e|lines]; cbn [fst snd trace files];
    try discriminate.
  destruct (map _ _) as [|u us] eqn:E; cbn [fst snd trace files];
    intros H; injection H as <-; exists lines; split; try reflexivity.
  rewrite <- app_assoc. reflexivity.
Qed.

(** Brings the equation [R : rw = run w] to the point where the feed list
    has been loaded and found non-empty. *)
Ltac start_of_main Hl R :=
  let lines := fresh "lines" in
  let Hf := fresh "Hf" in
  let G := fresh "G" in
  destruct (get_feed_list_returns _ _ _ Hl) as [lines [Hf G]];
  try unfold run in R; unfold main in R; unfold bind at 1 in R;
  rewrite G in R;
  match type of R with
  | context [match ?urls with [] => _ | _ :: _ => _ end] =>
      destruct urls; [congruence|]
  end;
  cbv beta iota in R;
  unfold os_getenv_default, os_getenv, ai_connect, Client, ai_model in R;
  unfold bind, call, logging, emit, exit, raise, ret in R;
  cbn [trace files fst snd initial app] in R.

(** X5: when the feed list is not empty and the model server does not
    answer at the address in use, for which a client was built, the run
    exits with status 1 after a CRITICAL record: the one call it made is the
    failed [ps]; no model is pulled, no feed is fetched. *)
Theorem X5_unreachable_server_stops_the_run w urls :
  fst (get_feed_list w initial) = Ret urls -> urls <> [] ->
  client_new w (effective_host w) = None ->
  (forall h, client_ps w h (effective_host w) <> None) ->
  fst (run w) = Exit 1
  /\ exists e,
       remote_calls (snd (run w)) = [ClientPs (effective_host w) (Some e)]
       /\ last (snd (run w)) (Now 0)
          = Log CRITICAL
              ("Failed to connect to AI server at " ++ effective_host w
                 ++ ": " ++ e).
Proof.
  intros Hl Hne Hnew Hps. remember (run w) as rw eqn:R.
  start_of_main Hl R.
  unfold effective_host in *.
  destruct (environ w "OLLAMA_HOST") as [v|]; cbv beta iota in R;
    [destruct (String.eqb v "http://localhost:11434")|
     change (String.eqb "http://localhost:11434" "http://localhost:11434")
       with true in R];
    cbv beta iota in R; cbn [trace files fst snd app] in R;
    rewrite Hnew in R; cbv beta iota in R; cbn [trace files fst snd app] in R;
    match type of R with
    | context [client_ps w ?h ?host] =>
        pose proof (Hps h) as N;
        destruct (client_ps w h host) as [e|]; [|congruence]
    end;
    cbv beta iota in R; cbn [trace files fst snd app] in R;
    subst rw; (split; [reflexivity|]); exists e;
    split; reflexivity.
Qed.

Lemma X5_witness :
  fst (run Cases.server_down) = Exit 1
  /\ exists e,
       remote_calls (snd (run Cases.server_down))
       = [ClientPs (effective_host Cases.server_down) (Some e)]
       /\ last (snd (run Cases.server_down)) (Now 0)
          = Log CRITICAL
              ("Failed to connect to AI server at "
                 ++ effective_host Cases.server_down ++ ": " ++ e).
Proof.
  apply (X5_unreachable_server_stops_the_run Cases.server_down
           [Sample.url1; Sample.url2]).
  - reflexivity.
  - discriminate.
  - reflexivity.
  - intros h. discriminate.
Defined.

(** X6: with a non-empty feed list, a client built for the address in use
    and a model server that answers, the
    start of a run makes four calls, in this order: [ps] at the address of
    OLLAMA_HOST (by default http://localhost:11434), [pull] of the model of
    MODEL (by default llama3.2), [create] of [custom_model] from that model
    with the text of SYSTEM_OPS (by default empty), and [show]; the loop
    over the feeds then runs on the whole list with that address as its
    client. *)
Theorem X6_start_uses_environment_or_defaults w urls :
  client_new w (effective_host w) = None ->
  model_server_up w ->
  fst (get_feed_list w initial) = Ret urls -> urls <> [] ->
  exists s1,
    main w initial = for_each (feed_step w (effective_host w)) urls s1
    /\ remote_calls (trace s1) =
         [ClientPs (effective_host w) None;
          ClientPull (effective_host w) (effective_model w) None;
          ClientCreate (effective_host w) "custom_model" (effective_model w)
            (effective_system_ops w) None;
          ClientShow (effective_host w) "custom_model" None]
    /\ files s1 = files initial.
Proof.
  intros Hnew [Hps [Hpull [Hcreate Hshow]]] Hl Hne.
  remember (main w initial) as ms eqn:R.
  start_of_main Hl R.
  unfold effective_host, effective_model, effective_system_ops in *.
  destruct (environ w "OLLAMA_HOST") as [host|]; cbv beta iota in R;
    [destruct (String.eqb host "http://localhost:11434")|
     change (String.eqb "http://localhost:11434" "http://localhost:11434")
       with true in R];
    cbv beta iota in R; cbn [trace files fst snd app] in R;
    rewrite Hnew in R; cbv beta iota in R; cbn [trace files fst snd app] in R;
    rewrite Hps in R; cbv beta iota in R; cbn [trace files fst snd app] in R;
    (destruct (environ w "SYSTEM_OPS") as [[|c ops]|]);
    cbv beta iota in R; cbn [trace files fst snd app PyStr.truthy] in R;
    cbv beta iota in R; cbn [trace files fst snd app] in R;
    (destruct (environ w "MODEL") as [model|]; cbv beta iota in R;
     [destruct (String.eqb model "llama3.2")|
      change (String.eqb "llama3.2" "llama3.2") with true in R]);
    cbv beta iota in R; cbn [trace files fst snd app] in R;
    rewrite Hpull in R; cbv beta iota in R; cbn [trace files fst snd app] in R;
    rewrite Hcreate in R; cbv beta iota in R;
    cbn [trace files fst snd app] in R;
    rewrite Hshow in R; cbv beta iota in R; cbn [trace files fst snd app] in R;
    subst ms; eexists; (split; [reflexivity|]); split; reflexivity.
Qed.

Lemma X6_witness :
  exists s1,
    main Cases.configured initial
    = for_each (feed_step Cases.configured "http://ollama:11434")
        [Sample.url1; Sample.url2] s1
    /\ remote_calls (trace s1) =
         [ClientPs "http://ollama:11434" None;
          ClientPull "http://ollama:11434" "mistral" None;
          ClientCreate "http://ollama:11434" "custom_model" "mistral"
            "Summarize in one line." None;
          ClientShow "http://ollama:11434" "custom_model" None]
    /\ files s1 = files initial.
Proof.
  apply (X6_start_uses_environment_or_defaults Cases.configured
           [Sample.url1; Sample.url2]).
  - reflexivity.
  - repeat split.
  - reflexivity.
  - discriminate.
Defined.

(** ** Without the token *)

Lemma send_slack_message_only_missing w title message link :
  token_missing w ->
  satisfies (only [CGetenv; CLog]) (send_slack_message w title message link).
Proof.
  intros H s.
  unfold send_slack_message, os_getenv, bind, call, logging, emit, exit.
  cbn [trace files].
  destruct H as [H|H]; rewrite H; cbn [trace files fst snd];
    eexists [_; _]; rewrite <- app_assoc;
    (split; [reflexivity|]); repeat constructor; simpl; tauto.
Qed.

Lemma article_step_only_missing w client a :
  token_missing w ->
  satisfies (only [CGenerate; CGetenv; CLog]) (article_step w client a).
Proof.
  intros H. unfold article_step.
  sat_walk ltac:(apply only_nil) ltac:(apply only_seq) ltac:(apply only_nil)
    ltac:(only_single)
    ltac:(first
            [ eapply only_weaken;
              [| apply (send_slack_message_only_missing _ _ _ _ H)];
              solve_incl
            | eapply only_weaken; [| solve [auto with alphabet]]; solve_incl ]).
Qed.

Lemma feed_step_only_missing w client url :
  token_missing w ->
  satisfies (only [CLog; CGet; CNow; CGenerate; CGetenv])
    (feed_step w client url).
Proof.
  intros H. unfold feed_step.
  sat_walk ltac:(apply only_nil) ltac:(apply only_seq) ltac:(apply only_nil)
    ltac:(only_single)
    ltac:(first
            [ eapply only_weaken;
              [| apply (article_step_only_missing _ _ _ H)];
              solve_incl
            | eapply only_weaken; [| solve [auto with alphabet]]; solve_incl ]).
Qed.

(** X7: when SLACK_API_TOKEN is unset or empty, no run ever calls
    [chat_postMessage]: whatever the feeds hold and whatever the model
    answers, nothing is posted. *)
Theorem X7_nothing_is_posted_without_token w :
  token_missing w ->
  Forall (fun e => class_of e <> CPost) (snd (run w)).
Proof.
  intros H.
  assert (W : forall L d, ~ In CPost L -> only L KRet d ->
                          Forall (fun e => class_of e <> CPost) d).
  { intros L d HL O. unfold only in O. eapply Forall_impl; [|exact O].
    intros e He E. cbv beta in He. rewrite E in He. contradiction. }
  assert (R : run w = (fst (main w initial), trace (snd (main w initial)))).
  { unfold run. destruct (main w initial). reflexivity. }
  rewrite R. cbn [snd].
  destruct (main_cases w initial) as [d [O [[_ E] | [[_ [E _]] | X]]]].
  - rewrite E. cbn [trace initial app].
    apply (W startup_classes); [simpl; intuition discriminate | exact O].
  - rewrite E. cbn [trace initial app].
    apply (W startup_classes); [simpl; intuition discriminate | exact O].
  - destruct X as [client [urls [s1 [_ [E1 M]]]]]. rewrite M.
    assert (L : satisfies (only [CLog; CGet; CNow; CGenerate; CGetenv])
                  (for_each (feed_step w client) urls)).
    { apply sat_for_each;
        [ apply only_nil | apply only_seq
        | intros; apply feed_step_only_missing; exact H ]. }
    destruct (L s1) as [d2 [E2 O2]]. rewrite E2, E1. cbn [trace initial app].
    apply Forall_app. split.
    + apply (W startup_classes); [simpl; intuition discriminate | exact O].
    + apply (W [CLog; CGet; CNow; CGenerate; CGetenv]);
        [simpl; intuition discriminate | exact O2].
Qed.

Lemma X7_witness :
  Forall (fun e => class_of e <> CPost) (snd (run Cases.no_token)).
Proof.
  apply (X7_nothing_is_posted_without_token Cases.no_token).
  left. reflexivity.
Defined.

(** ** How the script ends a run *)

Lemma announced_seq d1 k d2 :
  exits_announced KRet d1 -> exits_announced k d2 ->
  exits_announced k (d1 ++ d2).
Proof.
  intros _. destruct k as [|c|e]; try (intros; exact I).
  intros [-> [d0 [x [-> F]]]]. split; [reflexivity|].
  exists (d1 ++ d0), x. rewrite app_assoc. auto.
Qed.

(** A record and then [exit(1)]. *)
Lemma sat_fatal {A} lvl msg :
  fatal_record (Log lvl msg) ->
  satisfies exits_announced (bind (logging lvl msg) (fun _ => @exit A 1)).
Proof.
  intros F s. exists [Log lvl msg]. unfold bind, logging, emit, exit. simpl.
  split; [reflexivity|]. split; [reflexivity|]. exists [], (Log lvl msg). auto.
Qed.

Ltac fatal :=
  unfold fatal_record;
  first [ left; reflexivity
        | right; left; eexists _, _; reflexivity
        | right; right; left; eexists; reflexivity
        | right; right; right; left; eexists; reflexivity
        | right; right; right; right; reflexivity ].

Ltac announced :=
  repeat (intros; cbv beta;
    lazymatch goal with
    | |- satisfies _ (bind (logging _ _) (fun _ => exit _)) =>
        apply sat_fatal; fatal
    | |- satisfies _ (bind _ _) => apply sat_bind; [apply announced_seq | |]
    | |- satisfies _ (ret _) => apply sat_ret; exact I
    | |- satisfies _ (raise _) => apply sat_raise; exact I
    | |- satisfies _ (logging _ _) => apply sat_emit; exact I
    | |- satisfies _ (emit _) => apply sat_emit; exact I
    | |- satisfies _ (call _ _) => apply sat_call; intros; exact I
    | |- satisfies _ (ask _) => apply sat_ask; exact I
    | |- satisfies _ (write_file _ _) => apply sat_write_file; exact I
    | |- satisfies _ (read_file _) => apply sat_read_file; exact I
    | |- satisfies _ (for_each _ _) =>
        apply sat_for_each; [exact I | apply announced_seq |]
    | |- satisfies _ (for_fold _ _ _) =>
        apply sat_for_fold; [exact I | apply announced_seq |]
    | |- satisfies _ (match ?x with _ => _ end) => destruct x
    end).

Lemma main_announced w : satisfies exits_announced (main w).
Proof.
  unfold main, get_feed_list, os_getenv_default, os_getenv, ai_connect, Client,
    ai_model, feed_step, save_feed_raw, get_feed_content, datetime_now,
    item_step, article_step, ai_summary, send_slack_message.
  unfold os_getenv. cbv beta zeta. announced.
Qed.

(** X8: whenever the script itself ends a run, the exit status is 1 and
    the last thing the script did was to log why: the trace ends with the
    record that feeds.txt was not found, that the model server could not be
    reached, that the model could not be prepared, that a summary failed, or
    that the Slack token is missing.  The script never exits silently and
    never asks for another status. *)
Theorem X8_exit_is_status_1_after_a_fatal_record w code :
  fst (run w) = Exit code ->
  code = 1 /\ exists pre e, snd (run w) = pre ++ [e] /\ fatal_record e.
Proof.
  assert (R : run w = (fst (main w initial), trace (snd (main w initial)))).
  { unfold run. destruct (main w initial). reflexivity. }
  rewrite R. cbn [fst snd]. intros H.
  destruct (main_announced w initial) as [d [E Q]].
  rewrite H in Q. cbn [kind_of exits_announced] in Q.
  destruct Q as [-> [d0 [e [-> F]]]]. split; [reflexivity|].
  exists d0, e. rewrite E. auto.
Qed.

Lemma X8_witness :
  1 = 1
  /\ exists pre e,
       snd (run Cases.model_down) = pre ++ [e] /\ fatal_record e.
Proof.
  apply (X8_exit_is_status_1_after_a_fatal_record Cases.model_down 1).
  reflexivity.
Defined.

(** ** The URLs of the feed list *)

Lemma lstrip_fixed (t : string) :
  (forall c r, t = String c r -> PyStr.isspace c = false) ->
  PyStr.lstrip t = t.
Proof.
  destruct t as [|c r]; intros H; [reflexivity|].
  simpl. rewrite (H c r eq_refl). reflexivity.
Qed.

Lemma rstrip_fixed (t : string) :
  (forall r c, t = (r ++ String c EmptyString)%string ->
               PyStr.isspace c = false) ->
  PyStr.rstrip t = t.
Proof.
  induction t as [|a t IH]; intros H; [reflexivity|].
  simpl. rewrite IH.
  - destruct t as [|b t]; [|reflexivity].
    rewrite (H EmptyString a eq_refl). reflexivity.
  - intros r c E. apply (H (String a r) c). simpl. rewrite E. reflexivity.
Qed.

Lemma strip_idempotent (s : string) :
  PyStr.strip (PyStr.strip s) = PyStr.strip s.
Proof.
  destruct (PyStrFacts.strip_trimmed s) as [a [b [_ [_ [_ [Hh Hl]]]]]].
  unfold PyStr.strip at 1.
  rewrite (lstrip_fixed _ Hh). apply rstrip_fixed. exact Hl.
Qed.

(** X9: every URL that [get_feed_list] returns is a line of feeds.txt
    without its surrounding white space; it is not empty, and trimming it
    again changes nothing. *)
Theorem X9_urls_are_trimmed_and_not_empty w lines s urls url :
  feeds_txt w = Lines lines ->
  fst (get_feed_list w s) = Ret urls ->
  In url urls ->
  url <> EmptyString
  /\ PyStr.strip url = url
  /\ exists line, In line lines /\ PyStr.strip line = url.
Proof.
  intros Hf Hl Hin.
  rewrite (get_feed_list_present w lines s Hf) in Hl. injection Hl as <-.
  apply in_map_iff in Hin as [line [<- Hline]].
  apply filter_In in Hline as [Hline Ht].
  split; [apply truthy_true_nonempty; exact Ht|].
  split; [apply strip_idempotent|].
  exists line. split; [exact Hline | reflexivity].
Qed.

Lemma X9_witness :
  Sample.url2 <> EmptyString
  /\ PyStr.strip Sample.url2 = Sample.url2
  /\ exists line,
       In line [("  " ++ Sample.url2 ++ PyStr.nl)%string; PyStr.nl; Sample.url2]
       /\ PyStr.strip line = Sample.url2.
Proof.
  apply (X9_urls_are_trimmed_and_not_empty Cases.doubled
           [("  " ++ Sample.url2 ++ PyStr.nl)%string; PyStr.nl; Sample.url2]
           initial [Sample.url2; Sample.url2] Sample.url2).
  - reflexivity.
  - reflexivity.
  - left. reflexivity.
Defined.

(** ** Summaries and notifications over a whole run *)

Lemma in_pairs_app d1 d2 : in_pairs d1 -> in_pairs d2 -> in_pairs (d1 ++ d2).
Proof.
  induction 1 as [|? ? ? ? ? ? ? ? ? _ IH]; intros H2; simpl.
  - exact H2.
  - constructor. apply IH. exact H2.
Qed.

Lemma pairs_nil : pairs_or_stops KRet [].
Proof. left. constructor. Qed.

Lemma pairs_seq d1 k d2 :
  pairs_or_stops KRet d1 -> pairs_or_stops k d2 ->
  pairs_or_stops k (d1 ++ d2).
Proof.
  intros [H1 | [H1 _]]; [|discriminate].
  intros [H2 | [Hk [pre [g [E [P G]]]]]].
  - left. rewrite gateway_calls_app. apply in_pairs_app; assumption.
  - right. split; [exact Hk|].
    exists (gateway_calls d1 ++ pre), g.
    rewrite gateway_calls_app, E, app_assoc.
    split; [reflexivity|]. split; [apply in_pairs_app; assumption | exact G].
Qed.

Lemma pairs_of_only (L : list call_class) {A} (m : M A) :
  ~ In CGenerate L -> ~ In CPost L -> satisfies (only L) m ->
  satisfies pairs_or_stops m.
Proof.
  intros HG HP. apply satisfies_weaken. intros k d H. left.
  rewrite (gateway_calls_only L k d HG HP H). constructor.
Qed.

Lemma article_step_pairs w client a :
  satisfies pairs_or_stops (article_step w client a).
Proof.
  destruct a as [[title link] body]. intros s.
  destruct (article_step_paired w client title link body s)
    as [d [E [[_ [summary [token [r G]]]] | [K [r G]]]]];
    exists d; (split; [exact E|]).
  - left. rewrite G. repeat constructor.
  - right. split; [exact K|]. exists [], (ClientGenerate client "custom_model" body r).
    rewrite G. repeat split. constructor.
Qed.

Lemma feed_step_pairs w client url :
  satisfies pairs_or_stops (feed_step w client url).
Proof.
  unfold feed_step.
  sat_walk ltac:(apply pairs_nil) ltac:(apply pairs_seq)
    ltac:(left; constructor) ltac:(left; constructor)
    ltac:(first
            [ apply article_step_pairs
            | eapply pairs_of_only; [| | solve [auto with alphabet]];
              simpl; intuition discriminate ]).
Qed.

(** X10: over a whole run, across all feeds, the summarize and notify
    calls come in pairs: each notify call comes right after a summarize call
    that answered and carries that answer.  The one exception is a summarize
    call left without its notify call at the very end of a run that exits
    with status 1. *)
Theorem X10_summaries_and_notifications_pair_up w :
  pairs_or_stops (kind_of (fst (run w))) (snd (run w)).
Proof.
  assert (R : run w = (fst (main w initial), trace (snd (main w initial)))).
  { unfold run. destruct (main w initial). reflexivity. }
  rewrite R. cbn [fst snd].
  assert (S : forall d, only startup_classes KRet d -> in_pairs (gateway_calls d)).
  { intros d O.
    rewrite (gateway_calls_only startup_classes KRet d); [constructor | | | exact O];
      simpl; intuition discriminate. }
  destruct (main_cases w initial) as [d [O [[_ E] | [[_ [E _]] | X]]]].
  - rewrite E. left. apply S. exact O.
  - rewrite E. left. apply S. exact O.
  - destruct X as [client [urls [s1 [_ [E1 M]]]]]. rewrite M.
    assert (L : satisfies pairs_or_stops (for_each (feed_step w client) urls)).
    { apply sat_for_each;
        [apply pairs_nil | apply pairs_seq | intros; apply feed_step_pairs]. }
    destruct (L s1) as [d2 [E2 Q2]]. rewrite E2, E1. cbn [trace initial app].
    apply pairs_seq; [left; apply S; exact O | exact Q2].
Qed.

(** ** Files left behind *)

Lemma rel_ret R {A} (a : A) : related R (ret a).
Proof. intros s s' H. split; [reflexivity | exact H]. Qed.

Lemma rel_exit R {A} (c : Z) : related R (@exit A c).
Proof. intros s s' H. split; [reflexivity | exact H]. Qed.

Lemma rel_raise R {A} (e : exception) : related R (@raise A e).
Proof. intros s s' H. split; [reflexivity | exact H]. Qed.

Lemma rel_bind R {A B} (m : M A) (k : A -> M B) :
  related R m -> (forall a, related R (k a)) -> related R (bind m k).
Proof.
  intros Hm Hk s s' H. destruct (Hm s s' H) as [E1 R1]. unfold bind.
  destruct (m s) as [r1 s1]; destruct (m s') as [r1' s1'].
  cbn [fst snd] in E1, R1. subst r1'.
  destruct r1 as [a|c|e]; [apply Hk; exact R1 | |]; split; auto.
Qed.

Lemma rel_emit R (e : event) : emit_ok R -> related R (emit e).
Proof. intros He s s' H. split; [reflexivity | apply He; exact H]. Qed.

Lemma rel_call R {A} (answer : history -> A) (ev : A -> event) :
  trace_ok R -> emit_ok R -> related R (call answer ev).
Proof.
  intros Ht He s s' H. unfold call. cbn [fst snd].
  assert (E : answer (trace s') = answer (trace s))
    by (rewrite (Ht s s' H); reflexivity).
  rewrite E. split; [reflexivity | apply He; exact H].
Qed.

Lemma rel_ask R {A} (answer : history -> A) :
  trace_ok R -> related R (ask answer).
Proof.
  intros Ht s s' H. unfold ask. cbn [fst snd].
  rewrite (Ht s s' H). split; [reflexivity | exact H].
Qed.

Lemma rel_for_each R {A} (body : A -> M unit) (l : list A) :
  (forall x, related R (body x)) -> related R (for_each body l).
Proof.
  intros Hb. induction l as [|x l IH]; simpl.
  - apply rel_ret.
  - apply rel_bind; [apply Hb | intros _; exact IH].
Qed.

Lemma rel_for_fold R {A B} (body : A -> B -> M B) (l : list A) :
  (forall x acc, related R (body x acc)) ->
  forall acc, related R (for_fold body l acc).
Proof.
  intros Hb. induction l as [|x l IH]; intros acc; simpl.
  - apply rel_ret.
  - apply rel_bind; [apply Hb | intros acc'; apply IH].
Qed.

Lemma same_trace_ok : trace_ok same_trace.
Proof. intros s s' H. exact H. Qed.

Lemma same_trace_emit : emit_ok same_trace.
Proof. intros s s' e H. unfold same_trace in *. simpl. rewrite H. reflexivity. Qed.

Lemma agree_ok : trace_ok agree.
Proof. intros s s' [H _]. exact H. Qed.

Lemma agree_emit : emit_ok agree.
Proof.
  intros s s' e [H F]. split; simpl; [rewrite H; reflexivity | exact F].
Qed.

Lemma agree_read : related agree (read_file "raw_feed.xml").
Proof.
  intros s s' H. unfold read_file. cbn [fst snd].
  destruct H as [T F]. rewrite F. split; [reflexivity | split; assumption].
Qed.

Create HintDb rel.
#[export] Hint Resolve same_trace_ok same_trace_emit agree_ok agree_emit : rel.

Ltac rel_walk knownT :=
  repeat (intros;
    lazymatch goal with
    | |- related _ (bind _ _) => apply rel_bind
    | |- related _ (ret _) => apply rel_ret
    | |- related _ (exit _) => apply rel_exit
    | |- related _ (raise _) => apply rel_raise
    | |- related _ (logging _ _) => apply rel_emit; auto with rel
    | |- related _ (emit _) => apply rel_emit; auto with rel
    | |- related _ (call _ _) => apply rel_call; auto with rel
    | |- related _ (ask _) => apply rel_ask; auto with rel
    | |- related _ (for_each _ _) => apply rel_for_each
    | |- related _ (for_fold _ _ _) => apply rel_for_fold
    | |- related _ (match ?x with _ => _ end) => destruct x
    | |- related _ _ => knownT
    end).

Lemma article_step_related R w client a :
  trace_ok R -> emit_ok R -> related R (article_step w client a).
Proof.
  intros Ht He.
  unfold article_step, ai_summary, send_slack_message, os_getenv.
  repeat (intros;
    lazymatch goal with
    | |- related _ (bind _ _) => apply rel_bind
    | |- related _ (ret _) => apply rel_ret
    | |- related _ (exit _) => apply rel_exit
    | |- related _ (logging _ _) => apply rel_emit; exact He
    | |- related _ (call _ _) => apply rel_call; [exact Ht | exact He]
    | |- related _ (match ?x with _ => _ end) => destruct x
    end).
Qed.

Lemma get_feed_content_agree w :
  related agree (get_feed_content w "raw_feed.xml").
Proof.
  unfold get_feed_content, datetime_now.
  rel_walk ltac:(first [apply agree_read | unfold item_step]).
Qed.

Lemma save_feed_raw_same_trace w url s s' :
  same_trace s s' ->
  fst (save_feed_raw w url s) = fst (save_feed_raw w url s')
  /\ same_trace (snd (save_feed_raw w url s)) (snd (save_feed_raw w url s'))
  /\ (forall f, fst (save_feed_raw w url s) = Ret (Some f) ->
        f = "raw_feed.xml"
        /\ agree (snd (save_feed_raw w url s)) (snd (save_feed_raw w url s'))).
Proof.
  unfold same_trace. intros H.
  unfold save_feed_raw, bind, call, ask, logging, emit, write_file, raise, ret.
  cbn [trace files]. rewrite H.
  destruct (requests_get w (trace s') url 20) as [x|e|resp];
    cbn [fst snd trace files].
  - repeat split; discriminate.
  - repeat split; discriminate.
  - destruct (raise_for_status resp); cbn [fst snd trace files].
    + repeat split; discriminate.
    + destruct (write_fails w _ "raw_feed.xml"); cbn [fst snd trace files].
      * repeat split; discriminate.
      * repeat split; injection H0 as <-; reflexivity.
Qed.

Lemma feed_step_same_trace w client url :
  related same_trace (feed_step w client url).
Proof.
  unfold feed_step.
  apply rel_bind; [apply rel_emit; apply same_trace_emit | intros _].
  intros s s' H. unfold bind.
  destruct (save_feed_raw_same_trace w url s s' H) as [E [T A]].
  destruct (save_feed_raw w url s) as [r1 s1].
  destruct (save_feed_raw w url s') as [r1' s1'].
  cbn [fst snd] in E, T, A. subst r1'.
  destruct r1 as [[f|]|c|e]; try (split; [reflexivity | exact T]).
  destruct (A f eq_refl) as [-> G].
  assert (K : related agree
                (bind (get_feed_content w "raw_feed.xml")
                   (fun articles =>
                      match articles with
                      | [] => logging INFO ("No new articles today from " ++ url)
                      | _ => for_each (article_step w client) articles
                      end))).
  { apply rel_bind; [apply get_feed_content_agree|].
    intros articles. destruct articles as [|a0 rest].
    - apply rel_emit. apply agree_emit.
    - apply rel_for_each. intros x.
      apply article_step_related; auto with rel. }
  destruct (K s1 s1' G) as [E2 [T2 _]]. split; [exact E2 | exact T2].
Qed.

Lemma main_same_trace w : related same_trace (main w).
Proof.
  unfold main.
  rel_walk ltac:(first
    [ apply feed_step_same_trace
    | progress unfold get_feed_list
    | progress unfold os_getenv_default, os_getenv
    | progress unfold ai_connect, Client
    | progress unfold ai_model ]).
Qed.

(** X11: what the script does never depends on the files it finds: from
    two states with the same history, whatever raw_feed.xml holds in each
    (the body of an earlier feed, the leftover of an earlier run, nothing),
    the turn of the loop for a feed, and a whole run, end the same way and
    leave the same trace.  Each feed is parsed from the bytes fetched for
    it. *)
Theorem X11_stale_files_are_never_read w :
  (forall client url s s',
     trace s = trace s' ->
     fst (feed_step w client url s) = fst (feed_step w client url s')
     /\ trace (snd (feed_step w client url s))
        = trace (snd (feed_step w client url s')))
  /\ (forall s s',
        trace s = trace s' ->
        fst (main w s) = fst (main w s')
        /\ trace (snd (main w s)) = trace (snd (main w s'))).
Proof.
  split.
  - intros client url s s' H. exact (feed_step_same_trace w client url s s' H).
  - intros s s' H. exact (main_same_trace w s s' H).
Qed.

Lemma X11_witness :
  fst (main Sample.two_feeds initial)
  = fst (main Sample.two_feeds (Cases.stored Cases.doc_hollow))
  /\ trace (snd (main Sample.two_feeds initial))
     = trace (snd (main Sample.two_feeds (Cases.stored Cases.doc_hollow))).
Proof.
  apply (proj2 (X11_stale_files_are_never_read Sample.two_feeds)).
  reflexivity.
Defined.

(** ** Every listed feed is requested *)










(** ** Failures that are not handled *)

(** X12: when the feed list is not empty and [Client] raises on the
    address in use, the exception escapes from [ai_connect], which builds
    the client before its [try]: the run stops there with a traceback
    (status 1), without a record of the failure and without having
    contacted the model server, a feed or Slack. *)
Theorem X12_malformed_address_stops_before_any_call w urls e :
  fst (get_feed_list w initial) = Ret urls -> urls <> [] ->
  client_new w (effective_host w) = Some e ->
  fst (run w) = Raise e
  /\ exit_status (fst (run w)) = 1
  /\ remote_calls (snd (run w)) = []
  /\ Forall (fun x => forall msg, x <> Log ERROR msg /\ x <> Log CRITICAL msg)
       (snd (run w)).
Proof.
  intros Hl Hne Hnew. remember (run w) as rw eqn:R.
  start_of_main Hl R.
  unfold effective_host in *.
  destruct (environ w "OLLAMA_HOST") as [v|]; cbv beta iota in R;
    [destruct (String.eqb v "http://localhost:11434")|
     change (String.eqb "http://localhost:11434" "http://localhost:11434")
       with true in R];
    cbv beta iota in R; cbn [trace files fst snd app] in R;
    rewrite Hnew in R; cbv beta iota in R; cbn [trace files fst snd app] in R;
    subst rw; cbn [fst snd exit_status];
    (split; [reflexivity|]); (split; [reflexivity|]);
    (split; [reflexivity|]);
    repeat (constructor; [intros msg; split; discriminate|]); constructor.
Qed.

Lemma X12_witness :
  fst (run Cases.bad_host)
  = Raise (ValueError "Port could not be cast to integer value as 'port'")
  /\ exit_status (fst (run Cases.bad_host)) = 1
  /\ remote_calls (snd (run Cases.bad_host)) = []
  /\ Forall (fun x => forall msg, x <> Log ERROR msg /\ x <> Log CRITICAL msg)
       (snd (run Cases.bad_host)).
Proof.
  apply (X12_malformed_address_stops_before_any_call Cases.bad_host
           [Sample.url1; Sample.url2]).
  - reflexivity.
  - discriminate.
  - reflexivity.
Defined.

(** X13: not every failure of a fetch is local to its feed.  When
    [requests.get] raises an exception that is no [RequestException], or
    when the body cannot be written to raw_feed.xml, the exception escapes
    from [save_feed_raw] and from the loop: the run stops at that feed,
    nothing is logged about it, and the feeds listed after it are not
    requested. *)
Theorem X13_unhandled_fetch_errors_stop_the_run w client url later s :
  let s1 := mkState (trace s ++ [Log INFO ("Processing feed: " ++ url)])
              (files s) in
  (forall e,
     requests_get w (trace s1) url 20 = Escapes e ->
     for_each (feed_step w client) (url :: later) s =
       (Raise e,
        mkState (trace s1 ++ [RequestsGet url 20 (Escapes e)]) (files s)))
  /\ (forall resp e,
        requests_get w (trace s1) url 20 = Responds resp ->
        raise_for_status resp = None ->
        write_fails w (trace s1 ++ [RequestsGet url 20 (Responds resp)])
          "raw_feed.xml" = Some e ->
        for_each (feed_step w client) (url :: later) s =
          (Raise e,
           mkState (trace s1 ++ [RequestsGet url 20 (Responds resp)])
             (files s))).
Proof.
  intros s1. split.
  - intros e He. rewrite for_each_cons.
    unfold feed_step. unfold bind at 1. unfold logging at 1, emit at 1.
    fold s1. unfold bind at 1.
    unfold save_feed_raw, bind, call, raise. cbn [trace files].
    rewrite He. reflexivity.
  - intros resp e Hr Hs Hw. rewrite for_each_cons.
    unfold feed_step. unfold bind at 1. unfold logging at 1, emit at 1.
    fold s1. unfold bind at 1.
    unfold save_feed_raw, bind, call, ask, raise. cbn [trace files].
    rewrite Hr. cbv beta iota. rewrite Hs. cbn [trace files fst snd].
    rewrite Hw. reflexivity.
Qed.

Lemma X13_witness :
  for_each (feed_step Cases.bad_url "http://localhost:11434")
    [Sample.url1; Sample.url2] initial
  = (Raise (LocationParseError "Failed to parse: http://a.example/feed"),
     mkState
       [Log INFO ("Processing feed: " ++ Sample.url1);
        RequestsGet Sample.url1 20
          (Escapes (LocationParseError "Failed to parse: http://a.example/feed"))]
       (files initial))
  /\ for_each (feed_step Cases.bad_url "http://localhost:11434")
       [Sample.url2; Sample.url1] initial
     = (Raise (OSError "[Errno 13] Permission denied: 'raw_feed.xml'"),
        mkState
          [Log INFO ("Processing feed: " ++ Sample.url2);
           RequestsGet Sample.url2 20 (Responds (mkResponse 200 Sample.doc1))]
          (files initial)).
Proof.
  split.
  - apply (proj1 (X13_unhandled_fetch_errors_stop_the_run Cases.bad_url
                    "http://localhost:11434" Sample.url1 [Sample.url2]
                    initial)).
    reflexivity.
  - apply (proj2 (X13_unhandled_fetch_errors_stop_the_run Cases.bad_url
                    "http://localhost:11434" Sample.url2 [Sample.url1]
                    initial) (mkResponse 200 Sample.doc1));
      reflexivity.
Defined.
